(** * pysymbol-llm: symbol extraction and Markdown rendering of [nbs/c.py]

    A shallow embedding of the documentation generator.  Python strings are
    modelled as [string] (one [ascii] per code point, so code points below
    256), astroid nodes as records and an inductive [node], exceptions as a
    [result] type, and the output file together with standard output as an
    explicit [world] threaded through [generate_filelist]. *)

From Stdlib Require Import Ascii String.
From stdpp Require Import gmap strings list fin_maps.

(** ** Python string primitives *)

Module Py.

(** The newline character of ['\n']. *)
Definition nl : string := String "010"%char "".

(** [s.startswith(p)] *)
Definition startswith (p s : string) : bool := String.prefix p s.

(** [s.endswith(p)]: [s] is [p], or the tail of [s] ends with [p]. *)
Fixpoint endswith (p s : string) : bool :=
  String.eqb s p ||
  match s with
  | EmptyString => false
  | String _ s' => endswith p s'
  end.

(** [sep.join(l)] *)
Definition join (sep : string) (l : list string) : string :=
  String.concat sep l.

(** Truth value of a [str]: non-empty. *)
Definition truthy (s : string) : bool :=
  match s with EmptyString => false | String _ _ => true end.

(** [c.isspace()] for a code point below 256. *)
Definition isspace (c : ascii) : bool :=
  let n := nat_of_ascii c in
  ((9 <=? n) && (n <=? 13)) || ((28 <=? n) && (n <=? 32))
  || (n =? 133) || (n =? 160).

(** [s.lstrip()] *)
Fixpoint lstrip (s : string) : string :=
  match s with
  | EmptyString => EmptyString
  | String c s' => if isspace c then lstrip s' else s
  end.

(** [s.rstrip()] *)
Fixpoint rstrip (s : string) : string :=
  match s with
  | EmptyString => EmptyString
  | String c s' =>
      match rstrip s' with
      | EmptyString => if isspace c then EmptyString else String c EmptyString
      | r => String c r
      end
  end.

(** [s.strip()] *)
Definition strip (s : string) : string := rstrip (lstrip s).

(** [c in s] for a one-character [c]. *)
Fixpoint contains (c : ascii) (s : string) : bool :=
  match s with
  | EmptyString => false
  | String a s' => Ascii.eqb a c || contains c s'
  end.

(** [s.split(c)] for a one-character separator: never an empty list. *)
Fixpoint split (c : ascii) (s : string) : list string :=
  match s with
  | EmptyString => [EmptyString]
  | String a s' =>
      if Ascii.eqb a c then EmptyString :: split c s'
      else match split c s' with
           | h :: t => String a h :: t
           | [] => [String a EmptyString]
           end
  end.

(** [s.split(c, 1)]: at most one cut, at the first [c]. *)
Fixpoint split1 (c : ascii) (s : string) : list string :=
  match s with
  | EmptyString => [EmptyString]
  | String a s' =>
      if Ascii.eqb a c then [EmptyString; s']
      else match split1 c s' with
           | h :: t => String a h :: t
           | [] => [String a EmptyString]
           end
  end.

(** [s.rsplit(c, 1)]: at most one cut, at the last [c]. *)
Definition rsplit1 (c : ascii) (s : string) : list string :=
  reverse (String.rev <$> split1 c (String.rev s)).

End Py.

(** ** Exceptions *)

Inductive exc_class :=
| TypeError
| IndexError
| AttributeError
| RuntimeError
| ImportError
| ModuleNotFoundError
| OSError
| AstroidError (cls : string).

Record exception := Exception { exc_cls : exc_class; exc_msg : string }.

(** [str(e)] *)
Definition str (e : exception) : string := exc_msg e.

(** [isinstance(e, ImportError)]: [ModuleNotFoundError] is its subclass. *)
Definition is_ImportError (e : exception) : bool :=
  match exc_cls e with
  | ImportError | ModuleNotFoundError => true
  | _ => false
  end.

Inductive result (A : Type) :=
| Ok (a : A)
| Raise (e : exception).
Arguments Ok {A} a.
Arguments Raise {A} e.

(** [result] is an error monad; stdpp's [x ← r; k] notation sequences
    statements, an exception skipping the rest. *)
#[global] Instance result_ret : MRet result := fun _ a => Ok a.
#[global] Instance result_bind : MBind result := fun _ _ k r =>
  match r with
  | Ok a => k a
  | Raise e => Raise e
  end.

(** [try: r  except Exception as e: handler(e)] *)
Definition try_except {A} (r : result A) (handler : exception -> result A)
  : result A :=
  match r with
  | Ok a => Ok a
  | Raise e => handler e
  end.

(** [l[i]] *)
Definition getitem {A} (l : list A) (i : nat) : result A :=
  match l !! i with
  | Some x => Ok x
  | None => Raise (Exception IndexError "list index out of range")
  end.

(** ** The visibility predicate *)

Definition is_public_symbol (name : string) : bool :=
  negb (Py.startswith "_" name)
  || (Py.startswith "__" name && Py.endswith "__" name).

(** ** The syntax trees handed over by astroid

    Only the attributes that [c.py] reads are kept, together with the other
    parameter lists of [Arguments], which it never reads. *)

(** A parameter: an [AssignName] node with its [name]. *)
Record AssignName := { arg_name : string }.

(** [func.args].  [args] is [None] when the signature of the function cannot
    be retrieved (functions of extension modules). *)
Record Arguments := {
  args : option (list AssignName);
  posonlyargs : list AssignName;
  vararg : option string;
  kwonlyargs : list AssignName;
  kwarg : option string
}.

(** A docstring node: a [Const] with its [value]. *)
Record Const := { value : string }.

(** A decorator expression, seen through [as_string()]. *)
Record NodeNG := { as_string : string }.

(** [obj.decorators], when not [None]. *)
Record Decorators := { nodes : list NodeNG }.

(** [FunctionDef] (and its subclass [AsyncFunctionDef]). *)
Record FunctionDef := {
  fn_args : Arguments;
  fn_doc_node : option Const;
  fn_decorators : option Decorators
}.

(** The values of [module.items()] and [cls.items()]. *)
Inductive node :=
| FunctionDefNode (f : FunctionDef)
| ClassDefNode (c : ClassDef)
| OtherNode
with ClassDef :=
| mkClassDef (cls_doc_node : option Const)
             (cls_decorators : option Decorators)
             (cls_items : list (string * node)).

Definition cls_doc_node (c : ClassDef) : option Const :=
  match c with mkClassDef d _ _ => d end.
Definition cls_decorators (c : ClassDef) : option Decorators :=
  match c with mkClassDef _ d _ => d end.
Definition cls_items (c : ClassDef) : list (string * node) :=
  match c with mkClassDef _ _ l => l end.

(** An astroid [Module]. *)
Record Module_ := {
  mod_doc_node : option Const;
  mod_items : list (string * node)
}.

(** The attributes [doc_node] and [decorators], shared by several node
    classes. *)
Class HasDocNode (A : Type) := doc_node : A -> option Const.
Class HasDecorators (A : Type) := decorators : A -> option Decorators.

#[global] Instance FunctionDef_doc_node : HasDocNode FunctionDef := fn_doc_node.
#[global] Instance ClassDef_doc_node : HasDocNode ClassDef := cls_doc_node.
#[global] Instance Module_doc_node : HasDocNode Module_ := mod_doc_node.
#[global] Instance FunctionDef_decorators : HasDecorators FunctionDef :=
  fn_decorators.
#[global] Instance ClassDef_decorators : HasDecorators ClassDef :=
  cls_decorators.

(** [isinstance(obj, FunctionDef)] *)
Definition isinstance_FunctionDef (obj : node) : bool :=
  match obj with FunctionDefNode _ => true | _ => false end.

(** ** Symbol records *)

(** [(method_name, method_signature, method_doc, method_decorators)] *)
Definition method_record : Type := string * string * string * list string.

(** [('function', name, signature, doc, decorators)] and
    [('class', name, class_doc, class_decorators, methods)]. *)
Inductive symbol :=
| FunctionSymbol (name signature doc : string) (decs : list string)
| ClassSymbol (name class_doc : string) (class_decorators : list string)
              (methods : list method_record).

(** ** Extraction *)

(** [obj.doc_node.value if obj.doc_node else ""] *)
Definition doc_of `{HasDocNode A} (obj : A) : string :=
  match doc_node obj with
  | Some c => value c
  | None => ""
  end.

Definition get_params (func : FunctionDef) : result string :=
  match args (fn_args func) with
  | Some l => Ok (Py.join ", " (arg_name <$> l))
  | None => Raise (Exception TypeError "'NoneType' object is not iterable")
  end.

Definition get_decorators `{HasDecorators A} (obj : A) : list string :=
  match decorators obj with
  | Some d => as_string <$> nodes d
  | None => []
  end.

Definition log_error {A} (name : string) (error : exception) : result A :=
  Raise (Exception RuntimeError
           ("Error processing symbol " +:+ name +:+ ": " +:+ str error)).

Definition process_function (func : FunctionDef) (name : string)
    (include_no_docstring : bool) : result (option symbol) :=
  params ← get_params func;
  let signature := name +:+ "(" +:+ params +:+ ")" in
  let doc := doc_of func in
  let decorators := get_decorators func in
  if include_no_docstring || Py.truthy doc
  then Ok (Some (FunctionSymbol name signature doc decorators))
  else Ok None.

(** [process_method] is only reached behind [is_valid_method], so on a
    [FunctionDef]; any other node has no attribute [args]. *)
Definition process_method (method : node) (method_name : string)
  : result method_record :=
  match method with
  | FunctionDefNode method =>
      method_params ← get_params method;
      let method_signature := method_name +:+ "(" +:+ method_params +:+ ")" in
      let method_doc := doc_of method in
      let method_decorators := get_decorators method in
      Ok (method_name, method_signature, method_doc, method_decorators)
  | _ => Raise (Exception AttributeError "object has no attribute 'args'")
  end.

Definition is_valid_method (method : node) (method_name : string) : bool :=
  isinstance_FunctionDef method && is_public_symbol method_name.

(** The list comprehension of [process_class]. *)
Fixpoint process_methods (items : list (string * node))
  : result (list method_record) :=
  match items with
  | [] => Ok []
  | (method_name, method) :: items =>
      if is_valid_method method method_name then
        m ← process_method method method_name;
        ms ← process_methods items;
        Ok (m :: ms)
      else process_methods items
  end.

Definition process_class (cls : ClassDef) (name : string)
    (include_no_docstring : bool) : result symbol :=
  let class_doc := doc_of cls in
  let class_decorators := get_decorators cls in
  methods ← process_methods (cls_items cls);
  Ok (ClassSymbol name class_doc class_decorators methods).

(** The body of the [try] of [get_public_symbols], for one binding. *)
Definition process_symbol (obj : node) (name : string)
    (include_no_docstring : bool) (symbols : list symbol)
  : result (list symbol) :=
  match obj with
  | FunctionDefNode obj =>
      symbol ← process_function obj name include_no_docstring;
      match symbol with
      | Some symbol => Ok (symbols ++ [symbol])
      | None => Ok symbols
      end
  | ClassDefNode obj =>
      symbol ← process_class obj name include_no_docstring;
      Ok (symbols ++ [symbol])
  | OtherNode => Ok symbols
  end.

(** The [for] loop of [get_public_symbols] over [module.items()]. *)
Fixpoint get_public_symbols_loop (items : list (string * node))
    (include_no_docstring : bool) (symbols : list symbol)
  : result (list symbol) :=
  match items with
  | [] => Ok symbols
  | (name, obj) :: items =>
      if is_public_symbol name then
        symbols ← try_except
                    (process_symbol obj name include_no_docstring symbols)
                    (log_error name);
        get_public_symbols_loop items include_no_docstring symbols
      else get_public_symbols_loop items include_no_docstring symbols
  end.

Definition get_public_symbols (module : Module_)
    (include_no_docstring : bool) : result (list symbol) :=
  get_public_symbols_loop (mod_items module) include_no_docstring [].

(** ** The dead-code formatter

    [format_symbol] is called nowhere; it handles an absent decorator list
    differently from the writer below. *)

(** [' '.join(f'@{d}' for d in decorators)] *)
Definition decorator_str (decorators : list string) : string :=
  Py.join " " ((fun d => "@" +:+ d) <$> decorators).

Definition format_symbol (name signature doc : string)
    (decorators : option (list string)) (is_method : bool) : result string :=
  params ← (if Py.contains "(" signature then
              rest ← getitem (Py.split1 "(" signature) 1;
              getitem (Py.rsplit1 ")" rest) 0
            else Ok "");
  let decorator_str :=
    match decorators with
    | Some ((_ :: _) as decorators) => decorator_str decorators +:+ " "
    | _ => ""
    end in
  let formatted :=
    if is_method
    then "- `" +:+ decorator_str +:+ name +:+ "(" +:+ params +:+ ")`" +:+ Py.nl
    else "- `" +:+ decorator_str +:+ "def " +:+ name
         +:+ "(" +:+ params +:+ ")`" +:+ Py.nl in
  if Py.truthy doc then
    let doc_lines := Py.split "010" (Py.strip doc) in
    Ok (formatted +:+ "    " +:+ Py.join (Py.nl +:+ "    ") doc_lines +:+ Py.nl)
  else Ok formatted.

(** ** The world: files and standard output *)

Record world := World {
  fs : gmap string string;   (* path to content *)
  stdout : list string       (* printed lines, oldest first *)
}.

(** What the run takes from its collaborators. *)
Record package := { pkg_name : string; pkg_path : option (list string) }.

Record environment := {
  open_error : string -> option exception;   (* [None]: the path can be opened *)
  import_module : string -> result package;
  (* [pkgutil.walk_packages(path, prefix)]: the module names it yields
     and, if the import of a sub-package breaks, the exception it raises
     when asked for the next one *)
  walk_packages : list string -> string -> list string * option exception;
  ast_from_module_name : string -> result Module_
}.

(** Statements that read and write the world and may raise; the world
    reached when an exception is raised is kept. *)
Definition M (A : Type) : Type := world -> result A * world.

#[global] Instance M_ret : MRet M := fun _ a w => (Ok a, w).
#[global] Instance M_bind : MBind M := fun _ _ k m w =>
  match m w with
  | (Ok a, w') => k a w'
  | (Raise e, w') => (Raise e, w')
  end.

Definition lift {A} (r : result A) : M A := fun w => (r, w).
Definition raise {A} (e : exception) : M A := fun w => (Raise e, w).

(** [try: body  except Exception as e: handler(e)] *)
Definition try_except_M {A} (body : M A) (handler : exception -> M A) : M A :=
  fun w =>
    match body w with
    | (Ok a, w') => (Ok a, w')
    | (Raise e, w') => handler e w'
    end.

(** [print(line)] *)
Definition print (line : string) : M unit :=
  fun w => (Ok (), World (fs w) (stdout w ++ [line])).

(** [open(path, 'w')]: creates or truncates; the handle is the path. *)
Definition open_w (env : environment) (path : string) : M string :=
  fun w =>
    match open_error env path with
    | None => (Ok path, World (<[path := ""]> (fs w)) (stdout w))
    | Some e => (Raise e, w)
    end.

(** [f.write(text)] *)
Definition write (f : string) (text : string) : M unit :=
  fun w => (Ok (), World (alter (fun c => c +:+ text) f (fs w)) (stdout w)).

(** [for x in l: body(x)] *)
Fixpoint for_each {A} (l : list A) (body : A -> M unit) : M unit :=
  match l with
  | [] => mret ()
  | x :: l => body x;; for_each l body
  end.

(** [for x in g: body(x)] over a generator [g]: the body runs on what [g]
    yields, then the exception that ends [g], if any, is raised. *)
Definition for_each_yielded {A} (g : list A * option exception)
    (body : A -> M unit) : M unit :=
  for_each g.1 body;;
  match g.2 with
  | Some e => raise e
  | None => mret ()
  end.

(** ** The writer *)

Definition write_method (f : string) (m : method_record) : M unit :=
  let '(method_name, method_signature, method_doc, method_decorators) := m in
  let method_decorator_str := decorator_str method_decorators in
  write f ("    - `" +:+ method_decorator_str +:+ " def "
           +:+ method_signature +:+ "`" +:+ Py.nl);;
  if Py.truthy method_doc
  then write f ("        " +:+ Py.strip method_doc +:+ Py.nl +:+ Py.nl)
  else mret ().

Definition write_symbol (f : string) (symbol : symbol) : M unit :=
  match symbol with
  | FunctionSymbol name signature doc decorators =>
      let decorator_str := decorator_str decorators in
      write f ("- `" +:+ decorator_str +:+ " def " +:+ signature +:+ "`"
               +:+ Py.nl);;
      if Py.truthy doc
      then write f ("    " +:+ Py.strip doc +:+ Py.nl +:+ Py.nl)
      else mret ()
  | ClassSymbol name class_doc class_decorators methods =>
      let decorator_str := decorator_str class_decorators in
      write f ("- `" +:+ decorator_str +:+ " class " +:+ name +:+ "`"
               +:+ Py.nl);;
      (if Py.truthy class_doc
       then write f ("    " +:+ Py.strip class_doc +:+ Py.nl +:+ Py.nl)
       else mret ());;
      for_each methods (write_method f)
  end.

(** The body of the [try] of the module loop. *)
Definition process_module_body (env : environment) (f : string)
    (module_name : string) (include_no_docstring : bool) : M unit :=
  print ("Processing module: " +:+ module_name);;
  module ← lift (ast_from_module_name env module_name);
  symbols ← lift (get_public_symbols module include_no_docstring);
  match symbols with
  | _ :: _ =>
      write f ("## " +:+ module_name +:+ Py.nl +:+ Py.nl);;
      let module_doc := doc_of module in
      (if Py.truthy module_doc
       then write f ("> " +:+ Py.join (Py.nl +:+ "> ")
                                (Py.split "010" (Py.strip module_doc))
                     +:+ Py.nl +:+ Py.nl)
       else mret ());;
      for_each symbols (write_symbol f)
  | [] => print ("No public symbols found in " +:+ module_name)
  end.

(** One turn of the module loop: the [try] and its [except]. *)
Definition process_module (env : environment) (f : string)
    (module_name : string) (include_no_docstring : bool) : M unit :=
  try_except_M (process_module_body env f module_name include_no_docstring)
    (fun e => raise (Exception RuntimeError
                       ("Error processing " +:+ module_name +:+ ": "
                        +:+ str e))).

(** [package.__path__] *)
Definition get_path (package : package) : result (list string) :=
  match pkg_path package with
  | Some path => Ok path
  | None => Raise (Exception AttributeError
                     ("module '" +:+ pkg_name package
                      +:+ "' has no attribute '__path__'"))
  end.

Definition generate_filelist (env : environment)
    (package_name output_file : string) (include_no_docstring : bool)
  : M unit :=
  f ← open_w env output_file;
  write f ("# " +:+ package_name +:+ " Module Documentation"
           +:+ Py.nl +:+ Py.nl);;
  package ← try_except_M (lift (import_module env package_name))
              (fun e =>
                 if is_ImportError e
                 then raise (Exception ImportError
                               ("Could not import package " +:+ package_name
                                +:+ ". Is it installed?"))
                 else raise e);
  path ← lift (get_path package);
  for_each_yielded (walk_packages env path (pkg_name package +:+ "."))
    (fun module_name =>
       process_module env f module_name include_no_docstring);;
  print ("Documentation generated in " +:+ output_file).

(** ** Sample inputs *)

(** Sample nodes: [def h(): pass], and a function of an extension module
    whose parameters are unknown. *)
Definition no_arguments : Arguments :=
  {| args := Some []; posonlyargs := []; vararg := None;
     kwonlyargs := []; kwarg := None |}.
Definition unknown_arguments : Arguments :=
  {| args := None; posonlyargs := []; vararg := None;
     kwonlyargs := []; kwarg := None |}.
Definition plain_function : FunctionDef :=
  {| fn_args := no_arguments; fn_doc_node := None; fn_decorators := None |}.
Definition documented_function : FunctionDef :=
  {| fn_args := no_arguments; fn_doc_node := Some {| value := "doc" |};
     fn_decorators := None |}.
Definition opaque_function : FunctionDef :=
  {| fn_args := unknown_arguments; fn_doc_node := Some {| value := "doc" |};
     fn_decorators := None |}.

Definition undocumented_class : ClassDef :=
  mkClassDef None None [("m", FunctionDefNode plain_function)].

(** A class-body binding that is function-like and public. *)
Definition qualifies (item : string * node) : bool :=
  match item.2 with
  | FunctionDefNode _ => is_public_symbol item.1
  | _ => false
  end.

(** A module whose first public function has unknown parameters. *)
Definition broken_module : Module_ :=
  {| mod_doc_node := None;
     mod_items := [("f", FunctionDefNode opaque_function);
                   ("g", FunctionDefNode documented_function)] |}.

(** The world once the output file is opened and the title written. *)
Definition after_header (package_name output_file : string) (w : world)
  : world :=
  World (alter (fun c => c +:+ ("# " +:+ package_name
                                +:+ " Module Documentation"
                                +:+ Py.nl +:+ Py.nl))
           output_file (<[output_file := ""]> (fs w)))
        (stdout w).

(** A package [pkg] with three modules: [pkg.a] has only a private
    function, [pkg.b] is [broken_module], [pkg.c] has a documented function. *)
Definition private_module : Module_ :=
  {| mod_doc_node := None;
     mod_items := [("_x", FunctionDefNode documented_function)] |}.
Definition documented_module : Module_ :=
  {| mod_doc_node := None;
     mod_items := [("pub", FunctionDefNode documented_function)] |}.
Definition sample_env : environment :=
  {| open_error := fun _ => None;
     import_module := fun n =>
       if String.eqb n "pkg"
       then Ok {| pkg_name := "pkg"; pkg_path := Some ["/site/pkg"] |}
       else Raise (Exception ModuleNotFoundError
                     ("No module named '" +:+ n +:+ "'"));
     walk_packages := fun _ prefix =>
       ([prefix +:+ "a"; prefix +:+ "b"; prefix +:+ "c"], None);
     ast_from_module_name := fun n =>
       if String.eqb n "pkg.a" then Ok private_module
       else if String.eqb n "pkg.b" then Ok broken_module
       else Ok documented_module |}.

(** A statement that only appends some text to the file [f]. *)
Definition appends (f : string) (m : M unit) : Prop :=
  exists text, forall w,
    m w = (Ok (), World (alter (fun c => c +:+ text) f (fs w)) (stdout w)).

(** [def f(a, b, c, *rest, key, **more)], decorated with [@x] then [@y]. *)
Definition three_arguments : Arguments :=
  {| args := Some [ {| arg_name := "a" |}; {| arg_name := "b" |};
                    {| arg_name := "c" |} ];
     posonlyargs := []; vararg := Some "rest";
     kwonlyargs := [ {| arg_name := "key" |} ]; kwarg := Some "more" |}.
Definition decorated_function : FunctionDef :=
  {| fn_args := three_arguments; fn_doc_node := None;
     fn_decorators := Some {| nodes := [ {| as_string := "x" |};
                                         {| as_string := "y" |} ] |} |}.


(** [symbol[1]]: the name of a record. *)
Definition symbol_name (s : symbol) : string :=
  match s with
  | FunctionSymbol name _ _ _ => name
  | ClassSymbol name _ _ _ => name
  end.

(** The bindings of a module that end up in its symbol list. *)
Definition kept (include_no_docstring : bool) (item : string * node) : bool :=
  is_public_symbol item.1
  && match item.2 with
     | FunctionDefNode f => include_no_docstring || Py.truthy (doc_of f)
     | ClassDefNode _ => true
     | OtherNode => false
     end.

(** A statement that, whether it returns or raises, leaves every file but
    [f] alone, only adds text at the end of [f], and only adds printed
    lines, all of them satisfying [P]. *)
Definition confined (f : string) (P : string -> Prop) {A} (m : M A) : Prop :=
  forall w,
    (forall path, path <> f -> fs (m w).2 !! path = fs w !! path)
    /\ (forall c, fs w !! f = Some c ->
                  exists rest, fs (m w).2 !! f = Some (c +:+ rest))
    /\ (exists lines, stdout (m w).2 = stdout w ++ lines /\ Forall P lines).

(** A module without public symbol, and a package made of three of them. *)
Definition quiet_env : environment :=
  {| open_error := fun _ => None;
     import_module := fun n =>
       Ok {| pkg_name := n; pkg_path := Some ["/site"] |};
     walk_packages := fun _ prefix =>
       ([prefix +:+ "a"; prefix +:+ "b"], None);
     ast_from_module_name := fun _ => Ok private_module |}.

(** An environment whose import breaks with an error that is no import
    error, and one whose package is a plain module without [__path__]. *)
Definition crashing_env : environment :=
  {| open_error := fun _ => None;
     import_module := fun n =>
       Raise (Exception RuntimeError "boom at import time");
     walk_packages := fun _ _ => ([], None);
     ast_from_module_name := fun _ => Ok private_module |}.
Definition plain_module_env : environment :=
  {| open_error := fun _ => None;
     import_module := fun n => Ok {| pkg_name := n; pkg_path := None |};
     walk_packages := fun _ _ => ([], None);
     ast_from_module_name := fun _ => Ok private_module |}.

(** A documented module with one documented function. *)
Definition quoted_module : Module_ :=
  {| mod_doc_node := Some {| value := "Title" +:+ Py.nl +:+ "More." |};
     mod_items := [("pub", FunctionDefNode documented_function)] |}.
Definition quoted_env : environment :=
  {| open_error := fun _ => None;
     import_module := fun n =>
       Ok {| pkg_name := n; pkg_path := Some ["/site"] |};
     walk_packages := fun _ prefix => ([prefix +:+ "a"], None);
     ast_from_module_name := fun _ => Ok quoted_module |}.


(** A public function without docstring whose parameters are unknown, and
    a class with a public method of that kind. *)
Definition opaque_undocumented_function : FunctionDef :=
  {| fn_args := unknown_arguments; fn_doc_node := None;
     fn_decorators := None |}.
Definition class_with_opaque_method : ClassDef :=
  mkClassDef None None [("run", FunctionDefNode opaque_function)].

(** [def f(a, b, /, c)] and [def f(a, b, c, /)]: astroid keeps the
    parameters before the [/] in [posonlyargs]. *)
Definition some_posonly_function : FunctionDef :=
  {| fn_args := {| args := Some [ {| arg_name := "c" |} ];
                   posonlyargs := [ {| arg_name := "a" |};
                                    {| arg_name := "b" |} ];
                   vararg := None; kwonlyargs := []; kwarg := None |};
     fn_doc_node := None; fn_decorators := None |}.
Definition all_posonly_function : FunctionDef :=
  {| fn_args := {| args := Some [];
                   posonlyargs := [ {| arg_name := "a" |};
                                    {| arg_name := "b" |};
                                    {| arg_name := "c" |} ];
                   vararg := None; kwonlyargs := []; kwarg := None |};
     fn_doc_node := None; fn_decorators := None |}.

(** The text that [write_method] and [write_symbol] add to the file, as a
    function of the record. *)
Definition concat_all (l : list string) : string := foldr String.append "" l.

Definition rendered_method (m : method_record) : string :=
  let '(method_name, method_signature, method_doc, method_decorators) := m in
  "    - `" +:+ decorator_str method_decorators +:+ " def "
  +:+ method_signature +:+ "`" +:+ Py.nl
  +:+ (if Py.truthy method_doc
       then "        " +:+ Py.strip method_doc +:+ Py.nl +:+ Py.nl
       else "").

Definition rendered_symbol (s : symbol) : string :=
  match s with
  | FunctionSymbol name signature doc decs =>
      "- `" +:+ decorator_str decs +:+ " def " +:+ signature +:+ "`"
      +:+ Py.nl
      +:+ (if Py.truthy doc
           then "    " +:+ Py.strip doc +:+ Py.nl +:+ Py.nl
           else "")
  | ClassSymbol name class_doc decs methods =>
      "- `" +:+ decorator_str decs +:+ " class " +:+ name +:+ "`" +:+ Py.nl
      +:+ (if Py.truthy class_doc
           then "    " +:+ Py.strip class_doc +:+ Py.nl +:+ Py.nl
           else "")
      +:+ concat_all (rendered_method <$> methods)
  end.

(** A package whose walk yields [pkg.a] and then breaks on the import of a
    sub-package. *)
Definition stumbling_env : environment :=
  {| open_error := fun _ => None;
     import_module := fun n =>
       Ok {| pkg_name := n; pkg_path := Some ["/site"] |};
     walk_packages := fun _ prefix =>
       ([prefix +:+ "a"],
        Some (Exception RuntimeError "boom while importing pkg.sub"));
     ast_from_module_name := fun _ => Ok private_module |}.

(** ** Properties of the string primitives *)

Lemma app_String a (s r : string) : String a s +:+ r = String a (s +:+ r).
Proof. reflexivity. Qed.

Lemma app_empty_l (s : string) : "" +:+ s = s.
Proof. reflexivity. Qed.

Lemma startswith_spec p s :
  Py.startswith p s = true <-> exists r, s = p +:+ r.
Proof.
  unfold Py.startswith. revert s.
  induction p as [|a p IH]; intros s.
  - destruct s; simpl; split; eauto.
  - destruct s as [|b s]; simpl.
    + split; [discriminate | intros [r Hr]; discriminate].
    + destruct (ascii_dec a b) as [->|Hne].
      * rewrite IH. split; intros [r Hr]; exists r.
        -- by rewrite Hr.
        -- rewrite app_String in Hr. by injection Hr.
      * split; [discriminate |].
        intros [r Hr]. rewrite app_String in Hr. congruence.
Qed.

Lemma endswith_spec p s :
  Py.endswith p s = true <-> exists r, s = r +:+ p.
Proof.
  induction s as [|a s IH].
  - change (Py.endswith p "") with (String.eqb "" p || false).
    rewrite orb_false_r, String.eqb_eq. split.
    + intros <-. by exists "".
    + intros [r Hr]. destruct r; [done | discriminate].
  - change (Py.endswith p (String a s))
      with (String.eqb (String a s) p || Py.endswith p s).
    rewrite orb_true_iff, String.eqb_eq, IH. split.
    + intros [<- | [r ->]]; [by exists "" | by exists (String a r)].
    + intros [r Hr]. destruct r as [|b r].
      * by left.
      * right. exists r. rewrite app_String in Hr. congruence.
Qed.

(** C1: a name is public exactly when it does not start with the private
    marker ['_'], or it both starts and ends with the double marker ['__'];
    ["foo"] and ["__init__"] are public, ["_foo"] and ["__foo"] are not. *)
Theorem is_public_symbol_spec :
  (forall n : string,
      is_public_symbol n = true <->
      (~ (exists r, n = "_" +:+ r))
      \/ ((exists r, n = "__" +:+ r) /\ (exists r, n = r +:+ "__")))
  /\ is_public_symbol "foo" = true
  /\ is_public_symbol "_foo" = false
  /\ is_public_symbol "__init__" = true
  /\ is_public_symbol "__foo" = false.
Proof.
  split; [|done].
  intros n. unfold is_public_symbol.
  rewrite orb_true_iff, andb_true_iff, negb_true_iff.
  rewrite <- !startswith_spec, <- endswith_spec.
  destruct (Py.startswith "_" n); split; intros [H|H]; auto; done.
Qed.

(** ** The error monad *)

Lemma bind_Ok {A B} (a : A) (k : A -> result B) : (x ← Ok a; k x) = k a.
Proof. reflexivity. Qed.

(** ** The module pass *)

Section module_pass.
Context (include_no_docstring : bool).

#[local] Abbreviation loop items symbols :=
  (get_public_symbols_loop items include_no_docstring symbols).

(** One turn of the loop of [get_public_symbols]. *)
Lemma loop_cons name obj items symbols :
  loop ((name, obj) :: items) symbols =
  if is_public_symbol name then
    symbols' ← try_except
                 (process_symbol obj name include_no_docstring symbols)
                 (log_error name);
    loop items symbols'
  else loop items symbols.
Proof. reflexivity. Qed.

Lemma loop_app l1 l2 symbols :
  loop (l1 ++ l2) symbols = (symbols' ← loop l1 symbols; loop l2 symbols').
Proof.
  revert symbols. induction l1 as [|[name obj] l1 IH]; intros symbols.
  - reflexivity.
  - rewrite <- app_comm_cons, !loop_cons.
    destruct (is_public_symbol name); [|apply IH].
    destruct (try_except _ _) as [symbols'|e]; [|reflexivity].
    rewrite !bind_Ok. apply IH.
Qed.

(** The symbols found so far only ever grow at the end. *)
Lemma process_symbol_acc obj name symbols :
  process_symbol obj name include_no_docstring symbols =
  (found ← process_symbol obj name include_no_docstring [];
   Ok (symbols ++ found)).
Proof.
  destruct obj as [f|c|]; simpl.
  - destruct (process_function f name include_no_docstring) as [[sym|]|e];
      simpl; by rewrite ?app_nil_r.
  - by destruct (process_class c name include_no_docstring) as [sym|e].
  - by rewrite app_nil_r.
Qed.

Lemma loop_acc items symbols :
  loop items symbols = (found ← loop items []; Ok (symbols ++ found)).
Proof.
  revert symbols. induction items as [|[name obj] items IH]; intros symbols.
  - simpl. by rewrite app_nil_r.
  - rewrite !loop_cons. destruct (is_public_symbol name); [|apply IH].
    rewrite (process_symbol_acc obj name symbols).
    destruct (process_symbol obj name include_no_docstring []) as [found|e];
      [|reflexivity].
    simpl. rewrite IH, (IH found).
    destruct (loop items []) as [found'|e]; simpl; [|reflexivity].
    by rewrite app_assoc.
Qed.

(** A public binding that adds [found] in the middle of a module. *)
Lemma loop_middle pre name obj post s1 found s2 :
  loop pre [] = Ok s1 ->
  is_public_symbol name = true ->
  process_symbol obj name include_no_docstring [] = Ok found ->
  loop post [] = Ok s2 ->
  loop (pre ++ (name, obj) :: post) [] = Ok (s1 ++ found ++ s2).
Proof.
  intros Hpre Hpub Hobj Hpost.
  rewrite loop_app, Hpre, bind_Ok, loop_cons, Hpub.
  rewrite process_symbol_acc, Hobj. simpl.
  rewrite loop_acc, Hpost. simpl. by rewrite app_assoc.
Qed.

(** A public binding whose extraction raises, anywhere in a module. *)
Lemma loop_raise pre name obj post s1 e :
  loop pre [] = Ok s1 ->
  is_public_symbol name = true ->
  process_symbol obj name include_no_docstring s1 = Raise e ->
  loop (pre ++ (name, obj) :: post) [] =
  Raise (Exception RuntimeError
           ("Error processing symbol " +:+ name +:+ ": " +:+ str e)).
Proof.
  intros Hpre Hpub Hobj.
  by rewrite loop_app, Hpre, bind_Ok, loop_cons, Hpub, Hobj.
Qed.

End module_pass.

(** ** Inclusion policy of functions and classes *)

(** C2 does not hold for every public function: one whose parameters are
    unknown yields no record with the flag on, and with the flag off it is
    not dropped but ends the module pass. *)
Lemma opaque_function_yields_no_record :
  is_public_symbol "f" = true
  /\ doc_of opaque_undocumented_function = ""
  /\ process_function opaque_undocumented_function "f" true
     = Raise (Exception TypeError "'NoneType' object is not iterable")
  /\ get_public_symbols
       {| mod_doc_node := None;
          mod_items := [("f", FunctionDefNode opaque_undocumented_function)] |}
       true
     = Raise (Exception RuntimeError
                "Error processing symbol f: 'NoneType' object is not iterable")
  /\ get_public_symbols
       {| mod_doc_node := None;
          mod_items := [("f", FunctionDefNode opaque_undocumented_function)] |}
       false
     = Raise (Exception RuntimeError
                "Error processing symbol f: 'NoneType' object is not iterable")
  /\ ~ (exists record,
          process_function opaque_undocumented_function "f" true
          = Ok (Some record)).
Proof.
  repeat split; try reflexivity. intros [record H]. discriminate H.
Qed.

(** C2: a public top-level function whose parameters can be read and whose
    docstring is empty yields no record when [include_no_docstring] is
    false, and the module's symbol list is the one of the module without
    it; when the flag is true a record is produced whatever the docstring,
    with docstring [""] when none is attached. *)
Theorem function_inclusion_policy (func : FunctionDef) (name params : string) :
  get_params func = Ok params ->
  is_public_symbol name = true ->
  (doc_of func = "" ->
     process_function func name false = Ok None
     /\ forall d pre post,
         get_public_symbols
           {| mod_doc_node := d;
              mod_items := pre ++ (name, FunctionDefNode func) :: post |} false
         = get_public_symbols
             {| mod_doc_node := d; mod_items := pre ++ post |} false)
  /\ process_function func name true
     = Ok (Some (FunctionSymbol name (name +:+ "(" +:+ params +:+ ")")
                   (doc_of func) (get_decorators func)))
  /\ (fn_doc_node func = None -> doc_of func = "")
  /\ forall d pre post s1 s2,
      get_public_symbols {| mod_doc_node := d; mod_items := pre |} true
        = Ok s1 ->
      get_public_symbols {| mod_doc_node := d; mod_items := post |} true
        = Ok s2 ->
      get_public_symbols
        {| mod_doc_node := d;
           mod_items := pre ++ (name, FunctionDefNode func) :: post |} true
      = Ok (s1 ++ FunctionSymbol name (name +:+ "(" +:+ params +:+ ")")
                    (doc_of func) (get_decorators func) :: s2).
Proof.
  intros Hparams Hpub.
  assert (Hon : process_function func name true
                = Ok (Some (FunctionSymbol name
                              (name +:+ "(" +:+ params +:+ ")")
                              (doc_of func) (get_decorators func)))).
  { unfold process_function. by rewrite Hparams. }
  split; [|split; [done|split]].
  - intros Hdoc.
    assert (Hoff : process_function func name false = Ok None).
    { unfold process_function. by rewrite Hparams, Hdoc. }
    split; [done|]. intros d pre post. unfold get_public_symbols; simpl.
    rewrite !loop_app. destruct (get_public_symbols_loop pre false []);
      [|reflexivity].
    rewrite !bind_Ok, loop_cons, Hpub. simpl. by rewrite Hoff.
  - unfold doc_of, doc_node, FunctionDef_doc_node. by intros ->.
  - intros d pre post s1 s2 Hpre Hpost. unfold get_public_symbols in *.
    simpl in *.
    apply (loop_middle true pre name (FunctionDefNode func) post s1
             [FunctionSymbol name (name +:+ "(" +:+ params +:+ ")")
                (doc_of func) (get_decorators func)] s2); try done.
    simpl. by rewrite Hon.
Qed.

Lemma function_inclusion_policy_witness :
  get_params plain_function = Ok ""
  /\ is_public_symbol "h" = true
  /\ process_function plain_function "h" false = Ok None
  /\ process_function plain_function "h" true
     = Ok (Some (FunctionSymbol "h" "h()" "" [])).
Proof.
  pose proof (function_inclusion_policy plain_function "h" ""
                eq_refl eq_refl) as (Hoff & Hon & _).
  split; [reflexivity|split; [reflexivity|split]].
  - apply (proj1 (Hoff eq_refl)).
  - apply Hon.
Defined.

(** C3 does not hold for every public class: one with a public method
    whose parameters are unknown yields no record, under either flag. *)
Lemma class_with_opaque_method_yields_no_record :
  is_public_symbol "K" = true
  /\ (forall flag,
        process_class class_with_opaque_method "K" flag
        = Raise (Exception TypeError "'NoneType' object is not iterable"))
  /\ (forall flag,
        get_public_symbols
          {| mod_doc_node := None;
             mod_items := [("K", ClassDefNode class_with_opaque_method)] |}
          flag
        = Raise (Exception RuntimeError
                   "Error processing symbol K: 'NoneType' object is not iterable"))
  /\ ~ (exists flag record,
          process_class class_with_opaque_method "K" flag = Ok record).
Proof.
  split; [reflexivity|split; [|split]].
  - by intros [].
  - by intros [].
  - intros ([] & record & H); discriminate H.
Qed.

(** C3: a public top-level class whose methods can be extracted always
    yields a class record, appended to the symbol list, whatever its
    docstring and whatever [include_no_docstring]; the flag never changes
    what [process_class] returns. *)
Theorem class_always_included (cls : ClassDef) (name : string)
    (methods : list method_record) :
  process_methods (cls_items cls) = Ok methods ->
  is_public_symbol name = true ->
  (forall flag,
      process_class cls name flag
      = Ok (ClassSymbol name (doc_of cls) (get_decorators cls) methods))
  /\ (forall flag d pre post s1 s2,
        get_public_symbols {| mod_doc_node := d; mod_items := pre |} flag
          = Ok s1 ->
        get_public_symbols {| mod_doc_node := d; mod_items := post |} flag
          = Ok s2 ->
        get_public_symbols
          {| mod_doc_node := d;
             mod_items := pre ++ (name, ClassDefNode cls) :: post |} flag
        = Ok (s1 ++ ClassSymbol name (doc_of cls) (get_decorators cls)
                      methods :: s2))
  /\ (forall d' flag,
        process_class (mkClassDef d' (cls_decorators cls) (cls_items cls))
          name flag
        = Ok (ClassSymbol name
                (match d' with Some c => value c | None => "" end)
                (get_decorators cls) methods)).
Proof.
  intros Hmethods Hpub.
  assert (Hcls : forall flag, process_class cls name flag
            = Ok (ClassSymbol name (doc_of cls) (get_decorators cls) methods)).
  { intros flag. unfold process_class. by rewrite Hmethods. }
  split; [done|split].
  - intros flag d pre post s1 s2 Hpre Hpost. unfold get_public_symbols in *.
    simpl in *.
    apply (loop_middle flag pre name (ClassDefNode cls) post s1
             [ClassSymbol name (doc_of cls) (get_decorators cls) methods] s2);
      try done.
    simpl. by rewrite Hcls.
  - intros d' flag. unfold process_class. simpl. by rewrite Hmethods.
Qed.

Lemma class_always_included_witness :
  process_methods (cls_items undocumented_class) = Ok [("m", "m()", "", [])]
  /\ is_public_symbol "K" = true
  /\ forall flag,
      process_class undocumented_class "K" flag
      = Ok (ClassSymbol "K" "" [] [("m", "m()", "", [])]).
Proof.
  split; [reflexivity|split; [reflexivity|]].
  apply (class_always_included undocumented_class "K" [("m", "m()", "", [])]
           eq_refl eq_refl).
Defined.

(** ** Methods of a class *)

Lemma is_valid_method_qualifies n m : is_valid_method m n = qualifies (n, m).
Proof. by destruct m. Qed.

(** The guard of the comprehension keeps [process_method] on functions. *)
Lemma process_method_guarded n m :
  is_valid_method m n = true -> exists f, m = FunctionDefNode f.
Proof. destruct m as [f| |]; [by exists f|done..]. Qed.

Lemma process_methods_cons n m items :
  process_methods ((n, m) :: items) =
  if qualifies (n, m) then
    r ← process_method m n; rs ← process_methods items; Ok (r :: rs)
  else process_methods items.
Proof. simpl. by rewrite is_valid_method_qualifies. Qed.




Lemma process_methods_skip l1 n obj l2 :
  qualifies (n, obj) = false ->
  process_methods (l1 ++ (n, obj) :: l2) = process_methods (l1 ++ l2).
Proof.
  intros Hq. induction l1 as [|[n' m'] l1 IH].
  - simpl app. by rewrite process_methods_cons, Hq.
  - rewrite <- !app_comm_cons, !process_methods_cons, IH. done.
Qed.



(** ** Per-symbol errors *)

(** C5 does not hold with continuation: the exception raised for [f]
    leaves the module pass with a [RuntimeError], and [g] is never
    reached. *)
Lemma symbol_error_not_isolated :
  process_symbol (FunctionDefNode opaque_function) "f" false []
  = Raise (Exception TypeError "'NoneType' object is not iterable")
  /\ get_public_symbols broken_module false
     = Raise (Exception RuntimeError
                "Error processing symbol f: 'NoneType' object is not iterable")
  /\ ~ (exists symbols, get_public_symbols broken_module false = Ok symbols).
Proof.
  split; [reflexivity|split; [reflexivity|]].
  intros [symbols H]. discriminate H.
Qed.

(** C5: an exception raised while extracting a public top-level symbol is
    caught, not swallowed: it is raised again as a [RuntimeError] that
    names the symbol, and the module pass ends there, whatever follows in
    the module. *)
Theorem symbol_error_ends_module_pass (d : option Const)
    (pre post : list (string * node)) (name : string) (obj : node)
    (flag : bool) (s1 : list symbol) (e : exception) :
  get_public_symbols {| mod_doc_node := d; mod_items := pre |} flag = Ok s1 ->
  is_public_symbol name = true ->
  process_symbol obj name flag s1 = Raise e ->
  get_public_symbols
    {| mod_doc_node := d; mod_items := pre ++ (name, obj) :: post |} flag
  = Raise (Exception RuntimeError
             ("Error processing symbol " +:+ name +:+ ": " +:+ str e)).
Proof.
  unfold get_public_symbols. simpl. intros Hpre Hpub Hobj.
  by apply (loop_raise flag pre name obj post s1 e).
Qed.

Lemma symbol_error_ends_module_pass_witness :
  get_public_symbols
    {| mod_doc_node := None;
       mod_items := [] ++ ("f", FunctionDefNode opaque_function)
                       :: [("g", FunctionDefNode documented_function)] |} false
  = Raise (Exception RuntimeError
             ("Error processing symbol " +:+ "f" +:+ ": "
              +:+ "'NoneType' object is not iterable")).
Proof.
  apply (symbol_error_ends_module_pass None []
           [("g", FunctionDefNode documented_function)] "f"
           (FunctionDefNode opaque_function) false []
           (Exception TypeError "'NoneType' object is not iterable"));
    reflexivity.
Defined.

(** ** The run *)

Lemma M_bind_Ok {A B} (m : M A) (k : A -> M B) w a w' :
  m w = (Ok a, w') -> (x ← m; k x) w = k a w'.
Proof. unfold mbind, M_bind. by intros ->. Qed.

Lemma M_bind_Raise {A B} (m : M A) (k : A -> M B) w e w' :
  m w = (Raise e, w') -> (x ← m; k x) w = (Raise e, w').
Proof. unfold mbind, M_bind. by intros ->. Qed.

Lemma for_each_app {A} (l1 l2 : list A) (body : A -> M unit) w w1 :
  for_each l1 body w = (Ok (), w1) ->
  for_each (l1 ++ l2) body w = for_each l2 body w1.
Proof.
  revert w. induction l1 as [|x l1 IH]; intros w.
  - by intros [= ->].
  - simpl. destruct (body x w) as [[[]|e] w'] eqn:Hx.
    + rewrite !(M_bind_Ok _ _ _ _ _ Hx). apply IH.
    + rewrite (M_bind_Raise _ _ _ _ _ Hx). discriminate.
Qed.

Lemma for_each_raise {A} (x : A) (l : list A) (body : A -> M unit) w e w' :
  body x w = (Raise e, w') -> for_each (x :: l) body w = (Raise e, w').
Proof. intros Hx. simpl. by rewrite (M_bind_Raise _ _ _ _ _ Hx). Qed.

(** The run up to the module loop. *)
Lemma generate_filelist_loop env package_name output_file flag w package path :
  open_error env output_file = None ->
  import_module env package_name = Ok package ->
  get_path package = Ok path ->
  generate_filelist env package_name output_file flag w =
  (for_each_yielded (walk_packages env path (pkg_name package +:+ "."))
     (fun module_name => process_module env output_file module_name flag);;
   print ("Documentation generated in " +:+ output_file))
    (after_header package_name output_file w).
Proof.
  intros Hw Himp Hpath. unfold generate_filelist.
  unfold mbind at 1, M_bind at 1. unfold open_w. rewrite Hw.
  unfold mbind at 1, M_bind at 1. unfold write at 1. simpl fs. simpl stdout.
  unfold mbind at 1, M_bind at 1. unfold try_except_M, lift at 1.
  rewrite Himp.
  unfold mbind at 1, M_bind at 1. unfold lift at 1. rewrite Hpath.
  reflexivity.
Qed.

Lemma process_module_raise env f module_name flag w e w' :
  process_module_body env f module_name flag w = (Raise e, w') ->
  process_module env f module_name flag w
  = (Raise (Exception RuntimeError
              ("Error processing " +:+ module_name +:+ ": " +:+ str e)), w').
Proof. intros H. unfold process_module, try_except_M. by rewrite H. Qed.

Lemma process_module_body_symbol_error env f module_name flag w module e :
  ast_from_module_name env module_name = Ok module ->
  get_public_symbols module flag = Raise e ->
  process_module_body env f module_name flag w
  = (Raise e, World (fs w) (stdout w ++ ["Processing module: " +:+ module_name])).
Proof.
  intros Hast Hgps. unfold process_module_body.
  unfold mbind at 1, M_bind at 1, print at 1.
  unfold mbind at 1, M_bind at 1, lift at 1. rewrite Hast.
  unfold mbind at 1, M_bind at 1, lift at 1. by rewrite Hgps.
Qed.

(** C6: an exception raised while extracting a top-level symbol is raised
    again as a [RuntimeError] naming the symbol, and any exception raised
    while a module is processed, that one included, is raised again as a
    [RuntimeError] naming the module; the run ends there, in the world
    reached at the exception: the modules that follow are not processed. *)
Theorem errors_end_the_run (env : environment)
    (package_name output_file : string) (flag : bool) (w : world)
    (package : package) (path pre post : list string) (module_name : string)
    (w1 : world) :
  open_error env output_file = None ->
  import_module env package_name = Ok package ->
  get_path package = Ok path ->
  (walk_packages env path (pkg_name package +:+ ".")).1
    = pre ++ module_name :: post ->
  for_each pre (fun m => process_module env output_file m flag)
    (after_header package_name output_file w) = (Ok (), w1) ->
  (forall e w2,
      process_module_body env output_file module_name flag w1
        = (Raise e, w2) ->
      generate_filelist env package_name output_file flag w
      = (Raise (Exception RuntimeError
                  ("Error processing " +:+ module_name +:+ ": " +:+ str e)),
         w2))
  /\ (forall module pre_items name obj post_items s1 e,
        ast_from_module_name env module_name = Ok module ->
        mod_items module = pre_items ++ (name, obj) :: post_items ->
        get_public_symbols_loop pre_items flag [] = Ok s1 ->
        is_public_symbol name = true ->
        process_symbol obj name flag s1 = Raise e ->
        get_public_symbols module flag
        = Raise (Exception RuntimeError
                   ("Error processing symbol " +:+ name +:+ ": " +:+ str e))
        /\ generate_filelist env package_name output_file flag w
           = (Raise (Exception RuntimeError
                       ("Error processing " +:+ module_name +:+ ": "
                        +:+ "Error processing symbol " +:+ name +:+ ": "
                        +:+ str e)),
              World (fs w1)
                (stdout w1 ++ ["Processing module: " +:+ module_name]))).
Proof.
  intros Hw Himp Hpath Hwalk Hpre.
  assert (Hrun : forall e w2,
             process_module_body env output_file module_name flag w1
               = (Raise e, w2) ->
             generate_filelist env package_name output_file flag w
             = (Raise (Exception RuntimeError
                         ("Error processing " +:+ module_name +:+ ": "
                          +:+ str e)), w2)).
  { intros e w2 Hbody.
    rewrite (generate_filelist_loop _ _ _ _ _ _ _ Hw Himp Hpath).
    apply M_bind_Raise. unfold for_each_yielded. apply M_bind_Raise.
    rewrite Hwalk, (for_each_app _ _ _ _ _ Hpre).
    apply for_each_raise. by apply process_module_raise. }
  split; [exact Hrun|].
  intros module pre_items name obj post_items s1 e Hast Hitems Hs1 Hpub Hobj.
  assert (Hgps : get_public_symbols module flag
                 = Raise (Exception RuntimeError
                            ("Error processing symbol " +:+ name +:+ ": "
                             +:+ str e))).
  { unfold get_public_symbols. rewrite Hitems.
    by apply (loop_raise flag pre_items name obj post_items s1 e). }
  split; [exact Hgps|].
  by rewrite (Hrun _ _ (process_module_body_symbol_error
                           env output_file module_name flag w1 module _
                           Hast Hgps)).
Qed.

Lemma errors_end_the_run_witness :
  exists w2,
    generate_filelist sample_env "pkg" "out.md" false (World ∅ [])
    = (Raise (Exception RuntimeError
                ("Error processing " +:+ "pkg.b" +:+ ": "
                 +:+ "Error processing symbol " +:+ "f" +:+ ": "
                 +:+ "'NoneType' object is not iterable")), w2)
    /\ stdout w2 = ["Processing module: pkg.a";
                    "No public symbols found in pkg.a";
                    "Processing module: pkg.b"].
Proof.
  eexists. split.
  - refine (proj2 (proj2 (errors_end_the_run sample_env "pkg" "out.md" false
             (World ∅ []) {| pkg_name := "pkg"; pkg_path := Some ["/site/pkg"] |}
             ["/site/pkg"] ["pkg.a"] ["pkg.c"] "pkg.b"
             (for_each ["pkg.a"]
                (fun m => process_module sample_env "out.md" m false)
                (after_header "pkg" "out.md" (World ∅ []))).2
             eq_refl eq_refl eq_refl eq_refl _)
           broken_module [] "f" (FunctionDefNode opaque_function)
           [("g", FunctionDefNode documented_function)] []
           (Exception TypeError "'NoneType' object is not iterable")
           eq_refl eq_refl eq_refl eq_refl eq_refl)).
    vm_compute. reflexivity.
  - vm_compute. reflexivity.
Defined.

(** ** What a module adds to the file *)

Lemma string_app_assoc (a b c : string) : (a +:+ b) +:+ c = a +:+ (b +:+ c).
Proof. induction a as [|x a IH]; [done|]. by rewrite !app_String, IH. Qed.

Lemma string_app_empty_r (a : string) : a +:+ "" = a.
Proof. induction a as [|x a IH]; [done|]. by rewrite app_String, IH. Qed.

Lemma alter_append (f t1 t2 : string) (m : gmap string string) :
  alter (fun c => c +:+ t2) f (alter (fun c => c +:+ t1) f m)
  = alter (fun c => c +:+ (t1 +:+ t2)) f m.
Proof.
  apply map_eq. intros k. destruct (decide (f = k)) as [<-|Hne].
  - rewrite !lookup_alter_eq. destruct (m !! f); simpl; [|done].
    by rewrite string_app_assoc.
  - by rewrite !lookup_alter_ne.
Qed.

Lemma appends_ret f : appends f (mret ()).
Proof.
  exists "". intros [m out]. unfold mret, M_ret. simpl. do 2 f_equal.
  symmetry. apply alter_id. intros c _. apply string_app_empty_r.
Qed.

Lemma appends_write f text : appends f (write f text).
Proof. by exists text. Qed.

Lemma appends_seq f (m1 m2 : M unit) :
  appends f m1 -> appends f m2 -> appends f (m1;; m2).
Proof.
  intros [t1 H1] [t2 H2]. exists (t1 +:+ t2). intros w.
  rewrite (M_bind_Ok _ _ _ _ _ (H1 w)), H2. simpl. by rewrite alter_append.
Qed.

Lemma appends_if f (b : bool) (m1 m2 : M unit) :
  appends f m1 -> appends f m2 -> appends f (if b then m1 else m2).
Proof. by destruct b. Qed.

Lemma appends_for_each {A} f (l : list A) (body : A -> M unit) :
  (forall x, appends f (body x)) -> appends f (for_each l body).
Proof.
  intros Hbody. induction l as [|x l IH]; simpl.
  - apply appends_ret.
  - by apply appends_seq.
Qed.

Lemma appends_write_method f m : appends f (write_method f m).
Proof.
  destruct m as [[[method_name method_signature] method_doc] decs].
  unfold write_method.
  apply appends_seq; [apply appends_write|].
  apply appends_if; [apply appends_write|apply appends_ret].
Qed.

Lemma appends_write_symbol f symbol : appends f (write_symbol f symbol).
Proof.
  destruct symbol as [name signature doc decs|name doc decs methods]; simpl.
  - apply appends_seq; [apply appends_write|].
    apply appends_if; [apply appends_write|apply appends_ret].
  - apply appends_seq; [apply appends_write|].
    apply appends_seq.
    + apply appends_if; [apply appends_write|apply appends_ret].
    + apply appends_for_each, appends_write_method.
Qed.

(** C9: a module whose symbol list is empty adds nothing to the file; its
    visit prints the progress line and the line saying that no public
    symbol was found.  A module with at least one record adds text that
    starts with its ['## '] header line and a blank line. *)
Theorem empty_module_has_no_section (env : environment)
    (f module_name : string) (flag : bool) (module : Module_) :
  ast_from_module_name env module_name = Ok module ->
  (get_public_symbols module flag = Ok [] ->
   forall w,
     process_module env f module_name flag w
     = (Ok (), World (fs w)
                 (stdout w ++ ["Processing module: " +:+ module_name;
                               "No public symbols found in " +:+ module_name])))
  /\ (forall symbol symbols,
        get_public_symbols module flag = Ok (symbol :: symbols) ->
        exists rest, forall w,
          process_module env f module_name flag w
          = (Ok (),
             World (alter (fun c => c +:+ ("## " +:+ module_name +:+ Py.nl
                                           +:+ Py.nl +:+ rest)) f (fs w))
               (stdout w ++ ["Processing module: " +:+ module_name]))).
Proof.
  intros Hast.
  assert (Hbody : forall w,
    process_module_body env f module_name flag w =
    (symbols ← lift (get_public_symbols module flag);
     match symbols with
     | _ :: _ =>
         write f ("## " +:+ module_name +:+ Py.nl +:+ Py.nl);;
         (if Py.truthy (doc_of module)
          then write f ("> " +:+ Py.join (Py.nl +:+ "> ")
                                   (Py.split "010" (Py.strip (doc_of module)))
                        +:+ Py.nl +:+ Py.nl)
          else mret ());;
         for_each symbols (write_symbol f)
     | [] => print ("No public symbols found in " +:+ module_name)
     end)
      (World (fs w) (stdout w ++ ["Processing module: " +:+ module_name]))).
  { intros w. unfold process_module_body.
    unfold mbind at 1, M_bind at 1, print at 1.
    unfold mbind at 1, M_bind at 1, lift at 1. by rewrite Hast. }
  split.
  - intros Hgps w. unfold process_module, try_except_M.
    rewrite Hbody. unfold mbind, M_bind, lift. rewrite Hgps.
    unfold print. simpl. by rewrite <- app_assoc.
  - intros symbol symbols Hgps.
    destruct (appends_seq f _ _
                (appends_if f (Py.truthy (doc_of module)) _ _
                   (appends_write f
                      ("> " +:+ Py.join (Py.nl +:+ "> ")
                                  (Py.split "010" (Py.strip (doc_of module)))
                       +:+ Py.nl +:+ Py.nl))
                   (appends_ret f))
                (appends_for_each f (symbol :: symbols) (write_symbol f)
                   (appends_write_symbol f))) as [rest Hrest].
    exists rest. intros w. unfold process_module, try_except_M.
    rewrite Hbody. unfold mbind at 1, M_bind at 1, lift at 1. rewrite Hgps.
    unfold mbind at 1, M_bind at 1, write at 1. rewrite Hrest. simpl.
    by rewrite alter_append, !string_app_assoc.
Qed.

Lemma empty_module_has_no_section_witness :
  ast_from_module_name sample_env "pkg.a" = Ok private_module
  /\ get_public_symbols private_module false = Ok []
  /\ forall w,
      process_module sample_env "out.md" "pkg.a" false w
      = (Ok (), World (fs w)
                  (stdout w ++ ["Processing module: " +:+ "pkg.a";
                                "No public symbols found in " +:+ "pkg.a"])).
Proof.
  split; [reflexivity|split; [reflexivity|]].
  apply (proj1 (empty_module_has_no_section sample_env "out.md" "pkg.a" false
                  private_module eq_refl) eq_refl).
Defined.

(** ** A package that cannot be imported *)

(** C10: when the import of the package fails with an import error, the
    run raises an [ImportError]; the output file has by then been created
    or truncated and holds exactly the title line and a blank line, other
    files are untouched and nothing was printed. *)
Theorem import_failure_leaves_header (env : environment)
    (package_name output_file : string) (flag : bool) (w : world)
    (e : exception) :
  open_error env output_file = None ->
  import_module env package_name = Raise e ->
  is_ImportError e = true ->
  exists w',
    generate_filelist env package_name output_file flag w
    = (Raise (Exception ImportError
                ("Could not import package " +:+ package_name
                 +:+ ". Is it installed?")), w')
    /\ fs w' !! output_file
       = Some ("# " +:+ package_name +:+ " Module Documentation"
               +:+ Py.nl +:+ Py.nl)
    /\ (forall path, path <> output_file -> fs w' !! path = fs w !! path)
    /\ stdout w' = stdout w.
Proof.
  intros Hw Himp He. exists (after_header package_name output_file w).
  split; [|split; [|split]].
  - unfold generate_filelist.
    unfold mbind at 1, M_bind at 1. unfold open_w. rewrite Hw.
    unfold mbind at 1, M_bind at 1. unfold write at 1. simpl fs. simpl stdout.
    unfold mbind at 1, M_bind at 1. unfold try_except_M, lift at 1.
    rewrite Himp, He. reflexivity.
  - unfold after_header. simpl. by rewrite lookup_alter_eq, lookup_insert_eq.
  - intros path Hne. unfold after_header. simpl.
    by rewrite lookup_alter_ne, lookup_insert_ne.
  - reflexivity.
Qed.

Lemma import_failure_leaves_header_witness :
  exists w',
    generate_filelist sample_env "nopkg" "out.md" false
      (World {["out.md" := "old content"]} [])
    = (Raise (Exception ImportError
                ("Could not import package " +:+ "nopkg"
                 +:+ ". Is it installed?")), w')
    /\ fs w' !! "out.md"
       = Some ("# " +:+ "nopkg" +:+ " Module Documentation"
               +:+ Py.nl +:+ Py.nl).
Proof.
  destruct (import_failure_leaves_header sample_env "nopkg" "out.md" false
              (World {["out.md" := "old content"]} [])
              (Exception ModuleNotFoundError "No module named 'nopkg'")
              eq_refl eq_refl eq_refl) as (w' & Hrun & Hfile & _).
  exists w'. by split.
Defined.

(** ** Parameters *)

Lemma split_no_separator c s :
  Py.contains c s = false -> Py.split c s = [s].
Proof.
  induction s as [|a s IH]; [done|]. simpl.
  intros [Ha Hs]%orb_false_iff. rewrite Ha, (IH Hs). done.
Qed.

Lemma split_at_separator c s t :
  Py.contains c s = false ->
  Py.split c (s +:+ String c t) = s :: Py.split c t.
Proof.
  induction s as [|a s IH].
  - intros _. rewrite app_empty_l. simpl. by rewrite Ascii.eqb_refl.
  - simpl. intros [Ha Hs]%orb_false_iff. by rewrite Ha, (IH Hs).
Qed.

Lemma join_cons_cons sep x y l :
  Py.join sep (x :: y :: l) = x +:+ sep +:+ Py.join sep (y :: l).
Proof. reflexivity. Qed.

Lemma contains_space_cons c (x : string) :
  Py.contains c x = false -> Ascii.eqb " " c = false ->
  Py.contains c (" " +:+ x) = false.
Proof.
  intros Hx Hc. change (" " +:+ x) with (String " " x).
  change (Ascii.eqb " " c || Py.contains c x = false). by rewrite Hc, Hx.
Qed.

Lemma split_join_tail (names : list string) :
  names <> [] ->
  Forall (fun n => Py.contains "," n = false) names ->
  Py.split "," (" " +:+ Py.join ", " names) = (fun n => " " +:+ n) <$> names.
Proof.
  induction names as [|x [|y names] IH]; [done| |]; intros _ Hall.
  - apply Forall_cons in Hall as [Hx _].
    change (Py.join ", " [x]) with x.
    rewrite fmap_cons, fmap_nil.
    apply split_no_separator. by apply contains_space_cons.
  - apply Forall_cons in Hall as [Hx Hall].
    rewrite join_cons_cons, fmap_cons, <- IH by done.
    rewrite <- string_app_assoc.
    change (", " +:+ Py.join ", " (y :: names))
      with (String "," (" " +:+ Py.join ", " (y :: names))).
    apply split_at_separator. by apply contains_space_cons.
Qed.

Lemma split_join (x : string) (names : list string) :
  Forall (fun n => Py.contains "," n = false) (x :: names) ->
  Py.split "," (Py.join ", " (x :: names))
  = x :: ((fun n => " " +:+ n) <$> names).
Proof.
  intros [Hx Hall]%Forall_cons. destruct names as [|y names].
  - change (Py.join ", " [x]) with x. by apply split_no_separator.
  - rewrite join_cons_cons, <- split_join_tail by done.
    change (", " +:+ Py.join ", " (y :: names))
      with (String "," (" " +:+ Py.join ", " (y :: names))).
    by apply split_at_separator.
Qed.

(** C8 does not hold for every positional parameter: the ones declared
    before a [/] are left out of the parameter string. *)
Lemma positional_only_parameters_are_left_out :
  get_params some_posonly_function = Ok "c"
  /\ get_params all_posonly_function = Ok ""
  /\ get_params some_posonly_function <> Ok "a, b, c"
  /\ get_params all_posonly_function <> Ok "a, b, c".
Proof. repeat split; try reflexivity; discriminate. Qed.

(** C8: the parameter string of a function is made of the names of its
    positional parameters [args.args], in the order of declaration and
    joined by [", "]: [a, b, c] for parameters [a], [b], [c].  Cutting the
    string at its commas gives the names back in that order, and the other
    parameter lists (variadic, keyword-only) never enter it. *)
Theorem get_params_declared_order (func : FunctionDef)
    (names : list AssignName) :
  args (fn_args func) = Some names ->
  (forall a b c,
      names = [a; b; c] ->
      get_params func
      = Ok (arg_name a +:+ ", " +:+ arg_name b +:+ ", " +:+ arg_name c))
  /\ (exists params,
        get_params func = Ok params
        /\ forall first rest,
            names = first :: rest ->
            Forall (fun a => Py.contains "," (arg_name a) = false) names ->
            Py.split "," params
            = arg_name first :: ((fun a => " " +:+ arg_name a) <$> rest))
  /\ (forall posonly var kwonly kw doc decs,
        get_params
          {| fn_args := {| args := Some names; posonlyargs := posonly;
                           vararg := var; kwonlyargs := kwonly; kwarg := kw |};
             fn_doc_node := doc; fn_decorators := decs |}
        = get_params func).
Proof.
  intros Hargs. unfold get_params. rewrite Hargs. split; [|split].
  - by intros a b c ->.
  - eexists. split; [reflexivity|].
    intros first rest -> Hall. rewrite fmap_cons, split_join.
    + by rewrite <- list_fmap_compose.
    + rewrite <- fmap_cons. by apply Forall_fmap.
  - done.
Qed.

Lemma get_params_declared_order_witness :
  args (fn_args decorated_function)
  = Some [ {| arg_name := "a" |}; {| arg_name := "b" |};
           {| arg_name := "c" |} ]
  /\ get_params decorated_function = Ok "a, b, c".
Proof.
  split; [reflexivity|].
  apply (proj1 (get_params_declared_order decorated_function _ eq_refl)
           {| arg_name := "a" |} {| arg_name := "b" |} {| arg_name := "c" |}
           eq_refl).
Defined.

(** ** Decorators in the written lines *)

(** C7: written with an empty decorator list, a function, a class and a
    method each get a line with a space between the backquote and [def] or
    [class], where [format_symbol] leaves none; two decorators [x] and [y]
    give [@x @y]. *)
Theorem empty_decorators_leave_a_space :
  fs (write_symbol "out" (FunctionSymbol "f" "f()" "" [])
        (World {["out" := ""]} [])).2 !! "out"
  = Some ("- ` def f()`" +:+ Py.nl)
  /\ fs (write_symbol "out" (ClassSymbol "K" "" [] [("m", "m()", "", [])])
           (World {["out" := ""]} [])).2 !! "out"
     = Some ("- ` class K`" +:+ Py.nl +:+ "    - ` def m()`" +:+ Py.nl)
  /\ format_symbol "f" "f()" "" (Some []) false = Ok ("- `def f()`" +:+ Py.nl)
  /\ format_symbol "f" "f()" "" None false = Ok ("- `def f()`" +:+ Py.nl)
  /\ decorator_str ["x"; "y"] = "@x @y"
  /\ fs (write_symbol "out" (FunctionSymbol "f" "f()" "" ["x"; "y"])
           (World {["out" := ""]} [])).2 !! "out"
     = Some ("- `@x @y def f()`" +:+ Py.nl).
Proof. repeat split; vm_compute; reflexivity. Qed.

(** ** Which bindings reach the symbol list *)

(** X1: a binding whose name is private, or whose value is neither a
    function nor a class, is passed over: the module gives the same result
    with and without it, also when its extraction would have raised. *)
Theorem skipped_binding_changes_nothing (d : option Const)
    (pre post : list (string * node)) (name : string) (obj : node)
    (flag : bool) :
  is_public_symbol name = false \/ obj = OtherNode ->
  get_public_symbols
    {| mod_doc_node := d; mod_items := pre ++ (name, obj) :: post |} flag
  = get_public_symbols {| mod_doc_node := d; mod_items := pre ++ post |} flag.
Proof.
  intros Hskip. unfold get_public_symbols. simpl. rewrite !loop_app.
  destruct (get_public_symbols_loop pre flag []) as [s1|e]; [|reflexivity].
  rewrite !bind_Ok, loop_cons.
  destruct Hskip as [-> | ->]; [reflexivity|].
  by destruct (is_public_symbol name).
Qed.

Lemma skipped_binding_changes_nothing_witness :
  get_public_symbols
    {| mod_doc_node := None;
       mod_items := [("g", FunctionDefNode documented_function)]
                    ++ ("_f", FunctionDefNode opaque_function) :: [] |} false
  = Ok [FunctionSymbol "g" "g()" "doc" []].
Proof.
  rewrite (skipped_binding_changes_nothing None
             [("g", FunctionDefNode documented_function)] [] "_f"
             (FunctionDefNode opaque_function) false (or_introl eq_refl)).
  reflexivity.
Defined.

Lemma process_symbol_names obj name flag found :
  is_public_symbol name = true ->
  process_symbol obj name flag [] = Ok found ->
  symbol_name <$> found = if kept flag (name, obj) then [name] else [].
Proof.
  intros Hpub. unfold kept. simpl. rewrite Hpub. simpl.
  destruct obj as [f|c|]; simpl.
  - unfold process_function. destruct (get_params f) as [ps|e]; [|done].
    simpl. destruct (flag || Py.truthy (doc_of f)); by intros [= <-].
  - destruct (process_class c name flag) as [sym|e] eqn:Hc; [|done].
    simpl. intros [= <-]. unfold process_class in Hc.
    destruct (process_methods (cls_items c)); [|done]. by injection Hc as <-.
  - by intros [= <-].
Qed.

Lemma loop_names flag items symbols :
  get_public_symbols_loop items flag [] = Ok symbols ->
  symbol_name <$> symbols
  = fst <$> filter (fun item => kept flag item = true) items.
Proof.
  revert symbols. induction items as [|[name obj] items IH]; intros symbols.
  - by intros [= <-].
  - rewrite loop_cons, filter_cons.
    destruct (is_public_symbol name) eqn:Hpub.
    + destruct (process_symbol obj name flag []) as [found|e] eqn:Hobj;
        [|done].
      simpl. rewrite loop_acc.
      destruct (get_public_symbols_loop items flag []) as [rest|e]; [|done].
      simpl. intros [= <-].
      rewrite fmap_app, (process_symbol_names _ _ _ _ Hpub Hobj), (IH rest)
        by done.
      destruct (kept flag (name, obj)) eqn:Hk.
      * by rewrite decide_True.
      * by rewrite decide_False.
    + intros Hloop. rewrite decide_False; [by apply IH|].
      unfold kept. simpl. by rewrite Hpub.
Qed.

(** X2: when a module pass succeeds, the names of its records are the
    names of the public bindings that are classes, or functions that have
    a docstring or are wanted without one, in the order of the module. *)
Theorem symbols_follow_module_order (module : Module_) (flag : bool)
    (symbols : list symbol) :
  get_public_symbols module flag = Ok symbols ->
  symbol_name <$> symbols
  = fst <$> filter (fun item => kept flag item = true) (mod_items module).
Proof. apply loop_names. Qed.

Lemma symbols_follow_module_order_witness :
  symbol_name <$> [FunctionSymbol "pub" "pub()" "doc" []] = ["pub"].
Proof.
  apply (symbols_follow_module_order documented_module false
           [FunctionSymbol "pub" "pub()" "doc" []] eq_refl).
Defined.

(** What [include_no_docstring] changes for one binding: nothing when the
    extraction raises, and otherwise only what is found. *)
Lemma process_symbol_flag obj name :
  match process_symbol obj name false [], process_symbol obj name true [] with
  | Ok found0, Ok found1 => found0 `sublist_of` found1
  | Raise e0, Raise e1 => e0 = e1
  | _, _ => False
  end.
Proof.
  destruct obj as [f|c|]; simpl.
  - unfold process_function. destruct (get_params f) as [ps|e]; [|done].
    simpl. destruct (Py.truthy (doc_of f)); simpl; [reflexivity|].
    apply sublist_nil_l.
  - unfold process_class.
    destruct (process_methods (cls_items c)); simpl; reflexivity.
  - reflexivity.
Qed.

Lemma loop_flag items :
  match get_public_symbols_loop items false [],
        get_public_symbols_loop items true [] with
  | Ok s0, Ok s1 => s0 `sublist_of` s1
  | Raise e0, Raise e1 => e0 = e1
  | _, _ => False
  end.
Proof.
  induction items as [|[name obj] items IH]; [simpl; reflexivity|].
  rewrite !loop_cons. destruct (is_public_symbol name); [|exact IH].
  pose proof (process_symbol_flag obj name) as Hobj.
  destruct (process_symbol obj name false []) as [f0|e0],
           (process_symbol obj name true []) as [f1|e1]; try done.
  - simpl. rewrite (loop_acc false items f0), (loop_acc true items f1).
    destruct (get_public_symbols_loop items false []) as [s0|e0],
             (get_public_symbols_loop items true []) as [s1|e1]; try done.
    simpl. by apply sublist_app.
  - simpl. by rewrite Hobj.
Qed.

(** X3: [include_no_docstring] never changes whether a module pass raises
    nor the exception raised, and the records found without the flag are,
    in the same order, among those found with it. *)
Theorem flag_only_adds_symbols (module : Module_) :
  (forall e,
      get_public_symbols module false = Raise e
      <-> get_public_symbols module true = Raise e)
  /\ (forall s0,
        get_public_symbols module false = Ok s0 ->
        exists s1,
          get_public_symbols module true = Ok s1 /\ s0 `sublist_of` s1).
Proof.
  unfold get_public_symbols. pose proof (loop_flag (mod_items module)) as H.
  destruct (get_public_symbols_loop (mod_items module) false []) as [s0|e0],
           (get_public_symbols_loop (mod_items module) true []) as [s1|e1];
    try done.
  - split; [done|]. intros ? [= <-]. eauto.
  - subst. split; [done|]. done.
Qed.

Lemma process_methods_app l1 l2 :
  process_methods (l1 ++ l2)
  = (ms1 ← process_methods l1; ms2 ← process_methods l2; Ok (ms1 ++ ms2)).
Proof.
  induction l1 as [|[n m] l1 IH].
  - simpl. by destruct (process_methods l2).
  - rewrite <- app_comm_cons, !process_methods_cons, IH.
    destruct (qualifies (n, m)); [|done].
    destruct (process_method m n) as [r|e]; [|done]. simpl.
    destruct (process_methods l1) as [ms1|e]; [|done]. simpl.
    by destruct (process_methods l2).
Qed.

(** X4: when a public method of a public class has unknown parameters
    and the methods before it extract, the module pass raises a
    [RuntimeError] that names the class, not the method; nothing of the
    class or of what follows it is returned. *)
Theorem method_error_names_the_class (d cdoc : option Const)
    (cdecs : option Decorators) (pre post body_pre body_post : list (string * node))
    (cname mname : string) (f : FunctionDef) (flag : bool)
    (s1 : list symbol) (ms : list method_record) :
  get_public_symbols {| mod_doc_node := d; mod_items := pre |} flag = Ok s1 ->
  is_public_symbol cname = true ->
  process_methods body_pre = Ok ms ->
  is_public_symbol mname = true ->
  args (fn_args f) = None ->
  get_public_symbols
    {| mod_doc_node := d;
       mod_items :=
         pre ++ (cname,
                 ClassDefNode
                   (mkClassDef cdoc cdecs
                      (body_pre ++ (mname, FunctionDefNode f) :: body_post)))
             :: post |} flag
  = Raise (Exception RuntimeError
             ("Error processing symbol " +:+ cname
              +:+ ": 'NoneType' object is not iterable")).
Proof.
  intros Hpre Hc Hms Hm Hargs. unfold get_public_symbols in *. simpl in *.
  apply (loop_raise flag pre cname _ post s1
           (Exception TypeError "'NoneType' object is not iterable"));
    try done.
  simpl. unfold process_class. simpl.
  rewrite process_methods_app, Hms, bind_Ok, process_methods_cons.
  unfold qualifies. simpl. rewrite Hm. unfold get_params. by rewrite Hargs.
Qed.

Lemma method_error_names_the_class_witness :
  get_public_symbols
    {| mod_doc_node := None;
       mod_items :=
         [] ++ ("K",
                ClassDefNode
                  (mkClassDef None None
                     ([("m", FunctionDefNode plain_function)]
                      ++ ("run", FunctionDefNode opaque_function) :: [])))
            :: [] |} true
  = Raise (Exception RuntimeError
             ("Error processing symbol " +:+ "K"
              +:+ ": 'NoneType' object is not iterable")).
Proof.
  apply (method_error_names_the_class None None None [] []
           [("m", FunctionDefNode plain_function)] [] "K" "run"
           opaque_function true [] [("m", "m()", "", [])]);
    reflexivity.
Defined.

(** ** Cutting and joining strings *)

Lemma split_nonempty c s : exists h t, Py.split c s = h :: t.
Proof.
  induction s as [|a s (h & t & IH)]; simpl; [by eauto|].
  destruct (Ascii.eqb a c); [by eauto|]. rewrite IH. eauto.
Qed.

Lemma split_app_sep c s t :
  Py.split c (s +:+ String c t) = Py.split c s ++ Py.split c t.
Proof.
  induction s as [|a s IH].
  - rewrite app_empty_l. simpl. by rewrite Ascii.eqb_refl.
  - rewrite app_String. simpl. rewrite IH.
    destruct (Ascii.eqb a c); [done|].
    by destruct (split_nonempty c s) as (h & tl & ->).
Qed.

Lemma split_parts_clean c s :
  Forall (fun part => Py.contains c part = false) (Py.split c s).
Proof.
  induction s as [|a s IH]; simpl; [by repeat constructor|].
  destruct (Ascii.eqb a c) eqn:Ha; [by constructor|].
  destruct (split_nonempty c s) as (h & tl & Hs). rewrite Hs in IH |- *.
  apply Forall_cons in IH as [Hh Htl]. constructor; [|done].
  simpl. by rewrite Ha, Hh.
Qed.

Lemma contains_app c s t :
  Py.contains c (s +:+ t) = Py.contains c s || Py.contains c t.
Proof.
  induction s as [|a s IH]; [done|].
  rewrite app_String. simpl. by rewrite IH, orb_assoc.
Qed.

Lemma join_prefix_head sep p y l :
  p +:+ Py.join sep (y :: l) = Py.join sep ((p +:+ y) :: l).
Proof.
  destruct l as [|z l]; [done|].
  by rewrite !join_cons_cons, string_app_assoc.
Qed.

(** Cutting at [c] a list joined by [c] followed by [p]. *)
Lemma split_join_prefixed c p x l :
  Py.split c (Py.join (String c p) (x :: l))
  = Py.split c x ++ concat ((fun y => Py.split c (p +:+ y)) <$> l).
Proof.
  revert x. induction l as [|y l IH]; intros x.
  - change (Py.join (String c p) [x]) with x. simpl. by rewrite app_nil_r.
  - rewrite join_cons_cons.
    change (String c p +:+ Py.join (String c p) (y :: l))
      with (String c (p +:+ Py.join (String c p) (y :: l))).
    rewrite split_app_sep, join_prefix_head, IH, fmap_cons. reflexivity.
Qed.

Lemma split_join_clean c p x l :
  Py.contains c p = false ->
  Forall (fun y => Py.contains c y = false) (x :: l) ->
  Py.split c (Py.join (String c p) (x :: l))
  = x :: ((fun y => p +:+ y) <$> l).
Proof.
  intros Hp [Hx Hl]%Forall_cons.
  rewrite split_join_prefixed, (split_no_separator c x Hx). simpl. f_equal.
  induction Hl as [|y l Hy Hl IH]; [done|].
  rewrite !fmap_cons. simpl. rewrite IH, split_no_separator; [done|].
  by rewrite contains_app, Hp, Hy.
Qed.

(** ** [split1] and [rsplit1] *)

Lemma split1_shape c s :
  if Py.contains c s
  then exists a b, Py.split1 c s = [a; b]
  else Py.split1 c s = [s].
Proof.
  induction s as [|a s IH]; simpl; [done|].
  destruct (Ascii.eqb a c); simpl; [by eauto|].
  destruct (Py.contains c s).
  - destruct IH as (x & y & ->). eauto.
  - by rewrite IH.
Qed.

Lemma split1_first c s t :
  Py.contains c s = false -> Py.split1 c (s +:+ String c t) = [s; t].
Proof.
  induction s as [|a s IH].
  - intros _. rewrite app_empty_l. simpl. by rewrite Ascii.eqb_refl.
  - simpl. intros [Ha Hs]%orb_false_iff. by rewrite Ha, (IH Hs).
Qed.

Lemma rev_app_spec (s acc : string) :
  String.rev_app s acc = String.rev s +:+ acc.
Proof.
  unfold String.rev. revert acc. induction s as [|a s IH]; intros acc.
  - done.
  - simpl. rewrite (IH (String a acc)), (IH (String a "")).
    by rewrite string_app_assoc.
Qed.

Lemma rev_snoc (s : string) c :
  String.rev (s +:+ String c "") = String c (String.rev s).
Proof.
  unfold String.rev.
  assert (H : forall acc,
             String.rev_app (s +:+ String c "") acc
             = String c (String.rev_app s acc)); [|apply H].
  induction s as [|a s IH]; intros acc; [done|].
  rewrite app_String. simpl. apply IH.
Qed.

Lemma rev_involutive (s : string) : String.rev (String.rev s) = s.
Proof.
  induction s as [|a s IH]; [done|].
  change (String.rev (String a s)) with (String.rev_app s (String a "")).
  by rewrite rev_app_spec, rev_snoc, IH.
Qed.

Lemma rsplit1_last c (s : string) :
  Py.rsplit1 c (s +:+ String c "") = [s; ""].
Proof.
  unfold Py.rsplit1. rewrite rev_snoc. simpl.
  rewrite Ascii.eqb_refl. simpl. by rewrite rev_involutive.
Qed.

Lemma rsplit1_nonempty c s : exists h t, Py.rsplit1 c s = h :: t.
Proof.
  unfold Py.rsplit1. pose proof (split1_shape c (String.rev s)) as H.
  destruct (Py.contains c (String.rev s)).
  - destruct H as (a & b & ->). by eexists _, _.
  - rewrite H. by eexists _, _.
Qed.

(** ** The formatter *)

(** The parameters that [format_symbol] reads back from a signature. *)
Lemma format_symbol_params_ok signature :
  exists params,
    (if Py.contains "(" signature then
       rest ← getitem (Py.split1 "(" signature) 1;
       getitem (Py.rsplit1 ")" rest) 0
     else Ok "") = Ok params.
Proof.
  pose proof (split1_shape "(" signature) as H.
  destruct (Py.contains "(" signature); [|by eauto].
  destruct H as (a & b & ->). simpl.
  destruct (rsplit1_nonempty ")" b) as (h & t & ->). by exists h.
Qed.

(** X5: [format_symbol] never raises: the two index accesses into the
    pieces of the signature are always in range, whatever the signature. *)
Theorem format_symbol_never_raises (name signature doc : string)
    (decorators : option (list string)) (is_method : bool) :
  exists text, format_symbol name signature doc decorators is_method = Ok text.
Proof.
  unfold format_symbol.
  destruct (format_symbol_params_ok signature) as [params ->]. simpl.
  destruct (Py.truthy doc); eauto.
Qed.

(** X6: given the signature that [process_function] builds from a name
    without parenthesis and a parameter string, [format_symbol] writes
    that same parameter string between the parentheses, whatever
    parentheses the parameters contain; an absent and an empty decorator
    list both give no prefix. *)
Theorem format_symbol_reads_params_back (name params : string)
    (decorators : option (list string)) (is_method : bool) :
  Py.contains "(" name = false ->
  format_symbol name (name +:+ "(" +:+ params +:+ ")") "" decorators is_method
  = Ok ("- `"
        +:+ match decorators with
            | Some (d :: ds) => decorator_str (d :: ds) +:+ " "
            | _ => ""
            end
        +:+ (if is_method then "" else "def ")
        +:+ name +:+ "(" +:+ params +:+ ")`" +:+ Py.nl).
Proof.
  intros Hname. unfold format_symbol.
  assert (Hin : Py.contains "(" (name +:+ "(" +:+ params +:+ ")") = true).
  { rewrite contains_app, Hname. reflexivity. }
  rewrite Hin.
  change (name +:+ "(" +:+ params +:+ ")")
    with (name +:+ String "(" (params +:+ String ")" "")).
  rewrite (split1_first "(" name _ Hname). simpl.
  rewrite rsplit1_last. simpl.
  destruct decorators as [[|d ds]|], is_method; reflexivity.
Qed.

Lemma format_symbol_reads_params_back_witness :
  Py.contains "(" "f" = false
  /\ format_symbol "f" ("f" +:+ "(" +:+ "a, b=(1, 2)" +:+ ")") ""
       (Some ["x"; "y"]) false
     = Ok ("- `@x @y def f(a, b=(1, 2))`" +:+ Py.nl).
Proof.
  split; [reflexivity|].
  apply (format_symbol_reads_params_back "f" "a, b=(1, 2)"
           (Some ["x"; "y"]) false eq_refl).
Defined.

(** X7: with a docstring, [format_symbol] adds after the signature line
    one line per line of the stripped docstring, each indented by four
    spaces, and ends the block with a newline. *)
Theorem format_symbol_indents_doc_lines (name signature doc : string)
    (decorators : option (list string)) (is_method : bool) (first : string) :
  format_symbol name signature "" decorators is_method = Ok first ->
  Py.truthy doc = true ->
  exists block,
    format_symbol name signature doc decorators is_method
    = Ok (first +:+ block)
    /\ Py.split "010" block
       = ((fun line => "    " +:+ line) <$> Py.split "010" (Py.strip doc))
         ++ [""].
Proof.
  unfold format_symbol. intros Hfirst Hdoc. rewrite Hdoc.
  destruct (format_symbol_params_ok signature) as [params Hparams].
  rewrite Hparams in Hfirst |- *. simpl in Hfirst |- *.
  injection Hfirst as <-.
  destruct (split_nonempty "010" (Py.strip doc)) as (l & ls & Hls).
  pose proof (split_parts_clean "010" (Py.strip doc)) as Hclean.
  rewrite Hls in Hclean |- *.
  exists ("    " +:+ Py.join (Py.nl +:+ "    ") (l :: ls) +:+ Py.nl).
  split; [done|].
  rewrite <- string_app_assoc, join_prefix_head.
  change (Py.nl +:+ "    ") with (String "010" "    ").
  change Py.nl with (String "010" "").
  rewrite split_app_sep, split_join_clean; [done|done|].
  apply Forall_cons in Hclean as [Hl Hls']. constructor; [|done].
  by rewrite contains_app, Hl.
Qed.

Lemma format_symbol_indents_doc_lines_witness :
  exists block,
    format_symbol "f" "f()" ("one" +:+ Py.nl +:+ "two") None false
    = Ok (("- `def f()`" +:+ Py.nl) +:+ block)
    /\ Py.split "010" block
       = ((fun line => "    " +:+ line)
            <$> Py.split "010" (Py.strip ("one" +:+ Py.nl +:+ "two")))
         ++ [""].
Proof.
  apply (format_symbol_indents_doc_lines "f" "f()"
           ("one" +:+ Py.nl +:+ "two") None false
           ("- `def f()`" +:+ Py.nl) eq_refl eq_refl).
Defined.

(** ** What a run may touch *)

Section confined.
Context (f : string) (P : string -> Prop).

Lemma confined_here {A} (r : result A) : confined f P (fun w => (r, w)).
Proof.
  intros w. simpl. split; [done|split].
  - intros c Hc. exists "". by rewrite string_app_empty_r.
  - exists []. by rewrite app_nil_r.
Qed.

Lemma confined_ret {A} (a : A) : confined f P (mret a).
Proof. apply (confined_here (Ok a)). Qed.

Lemma confined_lift {A} (r : result A) : confined f P (lift r).
Proof. apply confined_here. Qed.

Lemma confined_raise {A} e : confined f P (@raise A e).
Proof. apply (confined_here (Raise e)). Qed.

Lemma confined_print line : P line -> confined f P (print line).
Proof.
  intros Hline w. simpl. split; [done|split].
  - intros c Hc. exists "". by rewrite string_app_empty_r.
  - exists [line]. split; [done|by constructor].
Qed.

Lemma confined_write text : confined f P (write f text).
Proof.
  intros w. simpl. split; [|split].
  - intros path Hne. by rewrite lookup_alter_ne.
  - intros c Hc. exists text. by rewrite lookup_alter_eq, Hc.
  - exists []. by rewrite app_nil_r.
Qed.

(** Two confined steps in a row; [w1] is the world in between. *)
Lemma confined_step (w w1 w2 : world) :
  ((forall path, path <> f -> fs w1 !! path = fs w !! path)
   /\ (forall c, fs w !! f = Some c ->
                 exists rest, fs w1 !! f = Some (c +:+ rest))
   /\ (exists lines, stdout w1 = stdout w ++ lines /\ Forall P lines)) ->
  ((forall path, path <> f -> fs w2 !! path = fs w1 !! path)
   /\ (forall c, fs w1 !! f = Some c ->
                 exists rest, fs w2 !! f = Some (c +:+ rest))
   /\ (exists lines, stdout w2 = stdout w1 ++ lines /\ Forall P lines)) ->
  (forall path, path <> f -> fs w2 !! path = fs w !! path)
  /\ (forall c, fs w !! f = Some c ->
                exists rest, fs w2 !! f = Some (c +:+ rest))
  /\ (exists lines, stdout w2 = stdout w ++ lines /\ Forall P lines).
Proof.
  intros (Ho1 & Hf1 & l1 & Hs1 & HP1) (Ho2 & Hf2 & l2 & Hs2 & HP2).
  split; [|split].
  - intros path Hne. by rewrite Ho2, Ho1.
  - intros c Hc. destruct (Hf1 c Hc) as [r1 Hr1].
    destruct (Hf2 _ Hr1) as [r2 Hr2]. exists (r1 +:+ r2).
    by rewrite Hr2, string_app_assoc.
  - exists (l1 ++ l2). split; [by rewrite Hs2, Hs1, app_assoc|].
    by apply Forall_app.
Qed.

Lemma confined_bind {A B} (m : M A) (k : A -> M B) :
  confined f P m -> (forall a, confined f P (k a)) -> confined f P (m ≫= k).
Proof.
  intros Hm Hk w. specialize (Hm w). unfold mbind, M_bind.
  destruct (m w) as [[a|e] w1]; simpl in Hm; [|exact Hm].
  apply (confined_step w w1); [exact Hm|apply Hk].
Qed.

Lemma confined_try {A} (body : M A) (handler : exception -> M A) :
  confined f P body -> (forall e, confined f P (handler e)) ->
  confined f P (try_except_M body handler).
Proof.
  intros Hm Hk w. specialize (Hm w). unfold try_except_M.
  destruct (body w) as [[a|e] w1]; simpl in Hm; [exact Hm|].
  apply (confined_step w w1); [exact Hm|apply Hk].
Qed.

Lemma confined_if {A} (b : bool) (m1 m2 : M A) :
  confined f P m1 -> confined f P m2 -> confined f P (if b then m1 else m2).
Proof. by destruct b. Qed.

Lemma confined_for_each {A} (l : list A) (body : A -> M unit) :
  (forall x, confined f P (body x)) -> confined f P (for_each l body).
Proof.
  intros Hbody. induction l as [|x l IH]; simpl.
  - apply confined_ret.
  - apply confined_bind; [apply Hbody|by intros _].
Qed.

Lemma confined_for_each_yielded {A} (g : list A * option exception)
    (body : A -> M unit) :
  (forall x, confined f P (body x)) -> confined f P (for_each_yielded g body).
Proof.
  intros Hbody. unfold for_each_yielded.
  apply confined_bind; [by apply confined_for_each|intros _].
  destruct g.2; [apply confined_raise|apply confined_ret].
Qed.

Lemma confined_write_method m : confined f P (write_method f m).
Proof.
  destruct m as [[[method_name method_signature] method_doc] decs].
  unfold write_method.
  apply confined_bind; [apply confined_write|intros _].
  apply confined_if; [apply confined_write|apply confined_ret].
Qed.

Lemma confined_write_symbol symbol : confined f P (write_symbol f symbol).
Proof.
  destruct symbol as [name signature doc decs|name doc decs methods]; simpl.
  - apply confined_bind; [apply confined_write|intros _].
    apply confined_if; [apply confined_write|apply confined_ret].
  - apply confined_bind; [apply confined_write|intros _].
    apply confined_bind.
    + apply confined_if; [apply confined_write|apply confined_ret].
    + intros _. apply confined_for_each, confined_write_method.
Qed.

Lemma confined_process_module env module_name flag :
  P ("Processing module: " +:+ module_name) ->
  P ("No public symbols found in " +:+ module_name) ->
  confined f P (process_module env f module_name flag).
Proof.
  intros HP1 HP2. apply confined_try; [|intros e; apply confined_raise].
  unfold process_module_body.
  apply confined_bind; [by apply confined_print|intros _].
  apply confined_bind; [apply confined_lift|intros module].
  apply confined_bind; [apply confined_lift|intros [|symbol symbols]].
  - by apply confined_print.
  - apply confined_bind; [apply confined_write|intros _].
    apply confined_bind.
    + apply confined_if; [apply confined_write|apply confined_ret].
    + intros _. apply confined_for_each, confined_write_symbol.
Qed.

End confined.

(** The run from the import on, without the last printed line. *)
Lemma confined_modules (P : string -> Prop) env package_name output_file flag :
  (forall m, P ("Processing module: " +:+ m)) ->
  (forall m, P ("No public symbols found in " +:+ m)) ->
  confined output_file P
    (package ← try_except_M (lift (import_module env package_name))
                (fun e =>
                   if is_ImportError e
                   then raise (Exception ImportError
                                 ("Could not import package "
                                  +:+ package_name +:+ ". Is it installed?"))
                   else raise e);
     path ← lift (get_path package);
     for_each_yielded (walk_packages env path (pkg_name package +:+ "."))
       (fun module_name =>
          process_module env output_file module_name flag)).
Proof.
  intros HP1 HP2. apply confined_bind.
  { apply confined_try; [apply confined_lift|].
    intros e. destruct (is_ImportError e); apply confined_raise. }
  intros package. apply confined_bind; [apply confined_lift|intros path].
  apply confined_for_each_yielded. intros module_name.
  by apply confined_process_module.
Qed.

(** The run once the file is open, as a statement on the world with the
    title written. *)
Lemma generate_filelist_opened env package_name output_file flag w :
  open_error env output_file = None ->
  generate_filelist env package_name output_file flag w =
  ((package ← try_except_M (lift (import_module env package_name))
                 (fun e =>
                    if is_ImportError e
                    then raise (Exception ImportError
                                  ("Could not import package "
                                   +:+ package_name +:+ ". Is it installed?"))
                    else raise e);
    path ← lift (get_path package);
    for_each_yielded (walk_packages env path (pkg_name package +:+ "."))
      (fun module_name =>
         process_module env output_file module_name flag));;
   print ("Documentation generated in " +:+ output_file))
    (after_header package_name output_file w).
Proof.
  intros Hopen. unfold generate_filelist.
  unfold mbind at 1, M_bind at 1. unfold open_w. rewrite Hopen.
  unfold mbind at 1, M_bind at 1. unfold write at 1. simpl fs. simpl stdout.
  unfold mbind, M_bind.
  destruct (try_except_M _ _ _) as [[package|e] w1]; [|reflexivity].
  destruct (lift (get_path package) w1) as [[path|e] w2]; reflexivity.
Qed.

(** X8: whatever happens in a run whose output file could be opened, the
    other files are untouched, the output file starts with the title line
    and a blank line, and the lines printed before the run are still
    there. *)
Theorem run_keeps_to_its_file (env : environment)
    (package_name output_file : string) (flag : bool) (w : world) :
  open_error env output_file = None ->
  (forall path, path <> output_file ->
     fs (generate_filelist env package_name output_file flag w).2 !! path
     = fs w !! path)
  /\ (exists rest,
        fs (generate_filelist env package_name output_file flag w).2
          !! output_file
        = Some (("# " +:+ package_name +:+ " Module Documentation"
                 +:+ Py.nl +:+ Py.nl) +:+ rest))
  /\ (exists lines,
        stdout (generate_filelist env package_name output_file flag w).2
        = stdout w ++ lines).
Proof.
  intros Hopen. rewrite (generate_filelist_opened _ _ _ _ _ Hopen).
  pose proof (confined_bind output_file (fun _ => True) _
                (fun _ => print ("Documentation generated in "
                                 +:+ output_file))
                (confined_modules (fun _ => True) env package_name
                   output_file flag (fun _ => I) (fun _ => I))
                (fun _ => confined_print output_file _ _ I)
                (after_header package_name output_file w))
    as (Hother & Hfile & lines & Hlines & _).
  split; [|split].
  - intros path Hne. rewrite (Hother path Hne). unfold after_header. simpl.
    by rewrite lookup_alter_ne, lookup_insert_ne.
  - apply Hfile. unfold after_header. simpl.
    by rewrite lookup_alter_eq, lookup_insert_eq.
  - exists lines. by rewrite Hlines.
Qed.

Lemma run_keeps_to_its_file_witness :
  fs (generate_filelist sample_env "pkg" "out.md" false
        (World {["notes.txt" := "keep"]} [])).2 !! "notes.txt"
  = Some "keep".
Proof.
  rewrite (proj1 (run_keeps_to_its_file sample_env "pkg" "out.md" false
                    (World {["notes.txt" := "keep"]} []) eq_refl)
             "notes.txt"); [reflexivity|discriminate].
Defined.

Lemma then_print (m : M unit) line w :
  (m;; print line) w
  = match m w with
    | (Ok _, w1) => (Ok (), World (fs w1) (stdout w1 ++ [line]))
    | (Raise e, w1) => (Raise e, w1)
    end.
Proof. unfold mbind, M_bind. by destruct (m w) as [[[]|e] w1]. Qed.

(** X9: the line [Documentation generated in <file>] is printed by a run
    exactly when the run returns without an exception. *)
Theorem confirmation_means_success (env : environment)
    (package_name output_file : string) (flag : bool) (w : world) :
  exists lines,
    stdout (generate_filelist env package_name output_file flag w).2
    = stdout w ++ lines
    /\ ((generate_filelist env package_name output_file flag w).1 = Ok ()
        <-> ("Documentation generated in " +:+ output_file) ∈ lines).
Proof.
  destruct (open_error env output_file) as [e|] eqn:Hopen.
  - exists []. unfold generate_filelist, mbind, M_bind, open_w.
    rewrite Hopen. simpl. rewrite app_nil_r. split; [done|].
    split; [done|by intros ?%elem_of_nil].
  - rewrite (generate_filelist_opened _ _ _ _ _ Hopen).
    pose proof (confined_modules
                  (fun line =>
                     line <> "Documentation generated in " +:+ output_file)
                  env package_name output_file flag
                  ltac:(discriminate) ltac:(discriminate)
                  (after_header package_name output_file w))
      as (_ & _ & lines & Hlines & HP).
    rewrite then_print.
    match type of Hlines with
    | stdout (?x).2 = _ => destruct x as [[[]|e] w1]
    end; simpl in Hlines |- *.
    + exists (lines ++ ["Documentation generated in " +:+ output_file]).
      rewrite Hlines, app_assoc. split; [done|]. split; [|done].
      intros _. apply elem_of_app. right. by left.
    + exists lines. split; [done|]. split; [done|].
      intros Hin. by apply (proj1 (Forall_forall _ _) HP) in Hin.
Qed.

(** ** Failures before the module loop *)

(** X10: an exception of the import that is no import error is not
    rewrapped: the run raises that very exception, with the title already
    written to the file and nothing printed. *)
Theorem other_import_error_passes_through (env : environment)
    (package_name output_file : string) (flag : bool) (w : world)
    (e : exception) :
  open_error env output_file = None ->
  import_module env package_name = Raise e ->
  is_ImportError e = false ->
  generate_filelist env package_name output_file flag w
  = (Raise e, after_header package_name output_file w).
Proof.
  intros Hopen Himp He. rewrite (generate_filelist_opened _ _ _ _ _ Hopen).
  unfold mbind, M_bind, try_except_M, lift. by rewrite Himp, He.
Qed.

Lemma other_import_error_passes_through_witness :
  generate_filelist crashing_env "pkg" "out.md" false (World ∅ [])
  = (Raise (Exception RuntimeError "boom at import time"),
     after_header "pkg" "out.md" (World ∅ [])).
Proof.
  apply (other_import_error_passes_through crashing_env "pkg" "out.md" false
           (World ∅ []) (Exception RuntimeError "boom at import time")
           eq_refl eq_refl eq_refl).
Defined.

(** X11: a name that imports as a plain module, without [__path__], makes
    the run raise an [AttributeError] before any module is visited; the
    file holds the title only and nothing is printed. *)
Theorem plain_module_is_rejected (env : environment)
    (package_name output_file : string) (flag : bool) (w : world)
    (package : package) :
  open_error env output_file = None ->
  import_module env package_name = Ok package ->
  pkg_path package = None ->
  generate_filelist env package_name output_file flag w
  = (Raise (Exception AttributeError
              ("module '" +:+ pkg_name package
               +:+ "' has no attribute '__path__'")),
     after_header package_name output_file w).
Proof.
  intros Hopen Himp Hpath. rewrite (generate_filelist_opened _ _ _ _ _ Hopen).
  unfold mbind, M_bind, try_except_M, lift, get_path.
  by rewrite Himp, Hpath.
Qed.

Lemma plain_module_is_rejected_witness :
  generate_filelist plain_module_env "six" "out.md" false (World ∅ [])
  = (Raise (Exception AttributeError
              ("module '" +:+ "six" +:+ "' has no attribute '__path__'")),
     after_header "six" "out.md" (World ∅ [])).
Proof.
  apply (plain_module_is_rejected plain_module_env "six" "out.md" false
           (World ∅ []) {| pkg_name := "six"; pkg_path := None |}
           eq_refl eq_refl eq_refl).
Defined.

(** ** Whole runs *)

Lemma process_module_empty env f module_name flag module w :
  ast_from_module_name env module_name = Ok module ->
  get_public_symbols module flag = Ok [] ->
  process_module env f module_name flag w
  = (Ok (), World (fs w)
              (stdout w ++ ["Processing module: " +:+ module_name;
                            "No public symbols found in " +:+ module_name])).
Proof.
  intros Hast Hgps.
  unfold process_module, try_except_M, process_module_body.
  unfold mbind, M_bind, print, lift. rewrite Hast, Hgps. simpl.
  by rewrite <- app_assoc.
Qed.

Lemma for_each_empty_modules env f flag modules w :
  (forall m, m ∈ modules ->
     exists module, ast_from_module_name env m = Ok module
                    /\ get_public_symbols module flag = Ok []) ->
  for_each modules (fun m => process_module env f m flag) w
  = (Ok (),
     World (fs w)
       (stdout w
        ++ (modules ≫= fun m => ["Processing module: " +:+ m;
                                  "No public symbols found in " +:+ m]))).
Proof.
  revert w. induction modules as [|m modules IH]; intros w Hall.
  - simpl. rewrite app_nil_r. by destruct w.
  - destruct (Hall m) as (module & Hast & Hgps); [by left|].
    simpl for_each.
    rewrite (M_bind_Ok _ _ _ _ _
               (process_module_empty env f m flag module w Hast Hgps)).
    rewrite IH by (intros m' Hm'; apply Hall; by right).
    simpl. by rewrite <- app_assoc.
Qed.

(** X12: when the walk of the package yields its modules without raising,
    and every module is built and has no record to show, the run succeeds,
    the file holds the title line and a blank line and nothing else, and
    two lines are printed per module, in walk order, before the closing
    line. *)
Theorem package_without_symbols_gives_title_only (env : environment)
    (package_name output_file : string) (flag : bool) (w : world)
    (package : package) (path modules : list string) :
  open_error env output_file = None ->
  import_module env package_name = Ok package ->
  get_path package = Ok path ->
  walk_packages env path (pkg_name package +:+ ".") = (modules, None) ->
  (forall m, m ∈ modules ->
     exists module, ast_from_module_name env m = Ok module
                    /\ get_public_symbols module flag = Ok []) ->
  generate_filelist env package_name output_file flag w
  = (Ok (),
     World (<[output_file := "# " +:+ package_name
                              +:+ " Module Documentation"
                              +:+ Py.nl +:+ Py.nl]> (fs w))
       (stdout w
        ++ (modules ≫= fun m => ["Processing module: " +:+ m;
                                  "No public symbols found in " +:+ m])
        ++ ["Documentation generated in " +:+ output_file])).
Proof.
  intros Hopen Himp Hpath Hwalk Hall.
  rewrite (generate_filelist_loop _ _ _ _ _ _ _ Hopen Himp Hpath).
  rewrite then_print. unfold for_each_yielded. rewrite Hwalk. simpl.
  rewrite (M_bind_Ok _ _ _ _ _ (for_each_empty_modules _ _ _ _ _ Hall)).
  unfold after_header, mret, M_ret. simpl.
  rewrite alter_insert_eq, <- app_assoc. reflexivity.
Qed.

Lemma package_without_symbols_gives_title_only_witness :
  generate_filelist quiet_env "pkg" "out.md" true (World ∅ [])
  = (Ok (),
     World (<["out.md" := "# " +:+ "pkg" +:+ " Module Documentation"
                          +:+ Py.nl +:+ Py.nl]> ∅)
       ([] ++ (["pkg.a"; "pkg.b"]
                 ≫= fun m => ["Processing module: " +:+ m;
                               "No public symbols found in " +:+ m])
        ++ ["Documentation generated in " +:+ "out.md"])).
Proof.
  apply (package_without_symbols_gives_title_only quiet_env "pkg" "out.md"
           true (World ∅ []) {| pkg_name := "pkg"; pkg_path := Some ["/site"] |}
           ["/site"] ["pkg.a"; "pkg.b"] eq_refl eq_refl eq_refl eq_refl).
  intros m _. exists private_module. split; reflexivity.
Defined.

(** ** The module docstring and the decorators in the file *)

Lemma write_method_renders f m w :
  write_method f m w
  = (Ok (), World (alter (fun c => c +:+ rendered_method m) f (fs w))
              (stdout w)).
Proof.
  destruct m as [[[method_name method_signature] method_doc] decs].
  unfold write_method, rendered_method, mbind, M_bind, write.
  destruct (Py.truthy method_doc); simpl; [|reflexivity].
  by rewrite alter_append, !string_app_assoc.
Qed.

Lemma for_each_renders {A} f (render : A -> string) (body : A -> M unit) l :
  (forall x w,
      body x w
      = (Ok (), World (alter (fun c => c +:+ render x) f (fs w)) (stdout w))) ->
  forall w,
    for_each l body w
    = (Ok (),
       World (alter (fun c => c +:+ concat_all (render <$> l)) f (fs w))
         (stdout w)).
Proof.
  intros Hbody. induction l as [|x l IH]; intros w.
  - destruct w as [files out]. unfold mret, M_ret. simpl. do 2 f_equal.
    symmetry. apply alter_id. intros c _. apply string_app_empty_r.
  - simpl for_each. rewrite (M_bind_Ok _ _ _ _ _ (Hbody x w)), IH. simpl.
    by rewrite alter_append.
Qed.

Lemma write_symbol_renders f symbol w :
  write_symbol f symbol w
  = (Ok (), World (alter (fun c => c +:+ rendered_symbol symbol) f (fs w))
              (stdout w)).
Proof.
  destruct symbol as [name signature doc decs|name doc decs methods].
  - unfold write_symbol, rendered_symbol, mbind, M_bind, write.
    destruct (Py.truthy doc); simpl; [|reflexivity].
    by rewrite alter_append, !string_app_assoc.
  - unfold write_symbol, rendered_symbol.
    unfold mbind at 1, M_bind at 1, write at 1.
    unfold mbind at 1, M_bind at 1.
    destruct (Py.truthy doc); unfold write, mret, M_ret;
      rewrite (for_each_renders f rendered_method (write_method f) methods
                 (write_method_renders f)); simpl;
      by rewrite !alter_append, !string_app_assoc.
Qed.

(** X13: for a module with a record and a docstring, what is added to the
    file is the header, then a block that holds every line of the
    stripped docstring behind ["> "] and ends in a blank line, then the
    text of the records, one after the other. *)
Theorem module_docstring_is_quoted (env : environment)
    (f module_name : string) (flag : bool) (module : Module_)
    (first : symbol) (symbols : list symbol) :
  ast_from_module_name env module_name = Ok module ->
  get_public_symbols module flag = Ok (first :: symbols) ->
  Py.truthy (doc_of module) = true ->
  exists block,
    (forall w,
        process_module env f module_name flag w
        = (Ok (),
           World (alter (fun c =>
                           c +:+ ("## " +:+ module_name +:+ Py.nl +:+ Py.nl
                                  +:+ block
                                  +:+ concat_all
                                        (rendered_symbol
                                           <$> first :: symbols)))
                    f (fs w))
             (stdout w ++ ["Processing module: " +:+ module_name])))
    /\ Py.split "010" block
       = ((fun line => "> " +:+ line)
            <$> Py.split "010" (Py.strip (doc_of module)))
         ++ [""; ""].
Proof.
  intros Hast Hgps Hdoc.
  destruct (split_nonempty "010" (Py.strip (doc_of module)))
    as (l & ls & Hls).
  pose proof (split_parts_clean "010" (Py.strip (doc_of module))) as Hclean.
  exists ("> " +:+ Py.join (Py.nl +:+ "> ")
                     (Py.split "010" (Py.strip (doc_of module)))
          +:+ Py.nl +:+ Py.nl).
  split.
  - intros w. unfold process_module, try_except_M, process_module_body.
    unfold mbind at 1, M_bind at 1, print at 1.
    unfold mbind at 1, M_bind at 1, lift at 1. rewrite Hast.
    unfold mbind at 1, M_bind at 1, lift at 1. rewrite Hgps, Hdoc.
    unfold mbind, M_bind, write.
    rewrite (for_each_renders f rendered_symbol (write_symbol f)
               (first :: symbols) (write_symbol_renders f)).
    simpl. by rewrite !alter_append, !string_app_assoc.
  - rewrite Hls in Hclean |- *.
    rewrite <- string_app_assoc, join_prefix_head.
    change (Py.nl +:+ "> ") with (String "010" "> ").
    change (Py.nl +:+ Py.nl) with (String "010" (String "010" "")).
    rewrite split_app_sep, split_join_clean; [reflexivity|done|].
    apply Forall_cons in Hclean as [Hl Hls']. constructor; [|done].
    by rewrite contains_app, Hl.
Qed.

Lemma module_docstring_is_quoted_witness :
  exists block,
    (forall w,
        process_module quoted_env "out.md" "pkg.a" false w
        = (Ok (),
           World (alter (fun c =>
                           c +:+ ("## " +:+ "pkg.a" +:+ Py.nl +:+ Py.nl
                                  +:+ block
                                  +:+ "- ` def pub()`" +:+ Py.nl
                                  +:+ "    doc" +:+ Py.nl +:+ Py.nl))
                    "out.md" (fs w))
             (stdout w ++ ["Processing module: " +:+ "pkg.a"])))
    /\ Py.split "010" block = ["> Title"; "> More."; ""; ""].
Proof.
  destruct (module_docstring_is_quoted quoted_env "out.md" "pkg.a" false
              quoted_module (FunctionSymbol "pub" "pub()" "doc" []) []
              eq_refl eq_refl eq_refl) as (block & Hrun & Hblock).
  exists block. split.
  - intros w. rewrite Hrun. reflexivity.
  - rewrite Hblock. reflexivity.
Defined.

(** X14: the decorator text of a record keeps every decorator, in
    declaration order and behind an ['@']: cut at the spaces, it gives the
    decorators back, provided none of them contains a space. *)
Theorem decorator_str_keeps_order (d : string) (ds : list string) :
  Forall (fun d => Py.contains " " d = false) (d :: ds) ->
  Py.split " " (decorator_str (d :: ds))
  = (fun d => "@" +:+ d) <$> (d :: ds).
Proof.
  intros Hclean. unfold decorator_str. rewrite fmap_cons.
  change " " with (String " "%char "") at 1.
  rewrite split_join_clean; [|done|].
  - f_equal. by rewrite <- list_fmap_compose.
  - rewrite <- fmap_cons. apply Forall_fmap.
    eapply Forall_impl; [exact Hclean|]. intros x Hx. simpl.
    exact Hx.
Qed.

Lemma decorator_str_keeps_order_witness :
  Py.split " " (decorator_str ["staticmethod"; "cache"])
  = ["@staticmethod"; "@cache"].
Proof.
  apply (decorator_str_keeps_order "staticmethod" ["cache"]).
  repeat constructor.
Defined.



(** ** Partial output and private members *)

(** X16: the turn of one module, whether it ends well or raises, leaves
    every other file alone and keeps what the output file already holds,
    adding text only at its end. *)
Theorem module_turn_only_appends (env : environment)
    (f module_name : string) (flag : bool) (w : world) (c : string) :
  fs w !! f = Some c ->
  (exists rest,
      fs (process_module env f module_name flag w).2 !! f
      = Some (c +:+ rest))
  /\ (forall path, path <> f ->
        fs (process_module env f module_name flag w).2 !! path
        = fs w !! path).
Proof.
  intros Hc.
  destruct (confined_process_module f (fun _ => True) env module_name flag
              I I w) as (Hother & Hfile & _).
  split; [by apply Hfile|exact Hother].
Qed.

Lemma module_turn_only_appends_witness :
  (exists rest,
      fs (process_module sample_env "out.md" "pkg.b" false
            (World {["out.md" := "# pkg"]} [])).2 !! "out.md"
      = Some ("# pkg" +:+ rest))
  /\ (process_module sample_env "out.md" "pkg.b" false
        (World {["out.md" := "# pkg"]} [])).1
     = Raise (Exception RuntimeError
                ("Error processing pkg.b: Error processing symbol f: "
                 +:+ "'NoneType' object is not iterable")).
Proof.
  split; [|reflexivity].
  apply (module_turn_only_appends sample_env "out.md" "pkg.b" false
           (World {["out.md" := "# pkg"]} []) "# pkg").
  vm_compute. reflexivity.
Defined.

(** X17: a private member of a class body is never extracted: the class
    gives the same result with and without it, also when the member is a
    function whose parameters are unknown. *)
Theorem private_member_changes_nothing (cdoc : option Const)
    (cdecs : option Decorators) (l1 l2 : list (string * node))
    (n name : string) (obj : node) (flag : bool) :
  is_public_symbol n = false ->
  process_class (mkClassDef cdoc cdecs (l1 ++ (n, obj) :: l2)) name flag
  = process_class (mkClassDef cdoc cdecs (l1 ++ l2)) name flag.
Proof.
  intros Hn. unfold process_class. simpl.
  rewrite process_methods_skip; [done|].
  unfold qualifies. simpl. rewrite Hn. by destruct obj.
Qed.

Lemma private_member_changes_nothing_witness :
  process_class
    (mkClassDef None None
       ([("m", FunctionDefNode plain_function)]
        ++ ("_secret", FunctionDefNode opaque_function) :: [])) "K" false
  = Ok (ClassSymbol "K" "" [] [("m", "m()", "", [])]).
Proof.
  rewrite (private_member_changes_nothing None None
             [("m", FunctionDefNode plain_function)] [] "_secret" "K"
             (FunctionDefNode opaque_function) false eq_refl).
  reflexivity.
Defined.

(** ** A walk that breaks *)

(** X18: when the walk of the package raises after the modules it yielded
    were processed without error, the run raises that very exception, not
    wrapped with a module name, in the world reached after those modules;
    the closing line is not printed. *)
Theorem walk_error_passes_through (env : environment)
    (package_name output_file : string) (flag : bool) (w w1 : world)
    (package : package) (path modules : list string) (e : exception) :
  open_error env output_file = None ->
  import_module env package_name = Ok package ->
  get_path package = Ok path ->
  walk_packages env path (pkg_name package +:+ ".") = (modules, Some e) ->
  for_each modules (fun m => process_module env output_file m flag)
    (after_header package_name output_file w) = (Ok (), w1) ->
  generate_filelist env package_name output_file flag w = (Raise e, w1).
Proof.
  intros Hopen Himp Hpath Hwalk Hmods.
  rewrite (generate_filelist_loop _ _ _ _ _ _ _ Hopen Himp Hpath).
  apply M_bind_Raise. unfold for_each_yielded. rewrite Hwalk. simpl.
  by rewrite (M_bind_Ok _ _ _ _ _ Hmods).
Qed.

Lemma walk_error_passes_through_witness :
  exists w1,
    generate_filelist stumbling_env "pkg" "out.md" false (World ∅ [])
    = (Raise (Exception RuntimeError "boom while importing pkg.sub"), w1)
    /\ stdout w1 = ["Processing module: pkg.a";
                    "No public symbols found in pkg.a"].
Proof.
  eexists. split.
  - apply (walk_error_passes_through stumbling_env "pkg" "out.md" false
             (World ∅ [])
             (for_each ["pkg.a"]
                (fun m => process_module stumbling_env "out.md" m false)
                (after_header "pkg" "out.md" (World ∅ []))).2
             {| pkg_name := "pkg"; pkg_path := Some ["/site"] |}
             ["/site"] ["pkg.a"]
             (Exception RuntimeError "boom while importing pkg.sub")
             eq_refl eq_refl eq_refl eq_refl).
    vm_compute. reflexivity.
  - vm_compute. reflexivity.
Defined.
